(* ===================================================================== *)
(* Automata Controls Nexus BMS: alert engine and predictive maintenance  *)
(* plugins, shallow embedding of                                         *)
(*   plugins/alerts/automata_alert_engine.py                             *)
(*   plugins/analytics/predictive_maintenance_plugin.py                  *)
(*                                                                       *)
(* Python floats are modelled as exact rationals (Q).  NaN and the       *)
(* infinities are outside this model; every product of the health score  *)
(* on the constants of the code is exact in binary64 as well.            *)
(* ===================================================================== *)

From Stdlib Require Import QArith Qround Lqa ZArith String Ascii List Bool.
From stdpp Require Import base gmap strings.

Open Scope string_scope.
Set Warnings "-register-all".

(* --------------------------------------------------------------------- *)
(* Python values, exceptions and the helpers of the runtime              *)
(* --------------------------------------------------------------------- *)
Module Py.

(** The values a row, a table batch or a trigger argument can hold. *)
Inductive pyval :=
| PNone
| PBool (b : bool)
| PInt (z : Z)
| PFloat (q : Q)
| PStr (s : string)
| PList (l : list pyval)
| PDict (kv : list (string * pyval)).

(** The exceptions the modelled code can raise (all subclasses of
    [Exception]). *)
Inductive exn := AttributeError | KeyError | TypeError | ValueError.

(** A computation that returns a value or raises. *)
Inductive res (A : Type) := Ok (a : A) | Err (e : exn).
Arguments Ok {A} a.
Arguments Err {A} e.

Global Instance res_ret : MRet res := fun A a => Ok a.
Global Instance res_bind : MBind res := fun A B f m =>
  match m with Ok a => f a | Err e => Err e end.

(** Python truthiness: [bool(v)]. *)
Definition truthy (v : pyval) : bool :=
  match v with
  | PNone => false
  | PBool b => b
  | PInt z => negb (Z.eqb z 0)
  | PFloat q => negb (Qeq_bool q 0)
  | PStr s => negb (String.eqb s "")
  | PList l => negb (Nat.eqb (length l) 0)
  | PDict kv => negb (Nat.eqb (length kv) 0)
  end.

(** [d.get(k)] on a dict, as an association list (keys are unique). *)
Fixpoint dict_get {V} (kv : list (string * V)) (k : string) : option V :=
  match kv with
  | [] => None
  | (k', v) :: kv' => if String.eqb k k' then Some v else dict_get kv' k
  end.

(** [d.get(k, default)] with the default given. *)
Definition dict_get_default {V} (kv : list (string * V)) (k : string) (d : V) : V :=
  match dict_get kv k with Some v => v | None => d end.

(** [d[k]]: raises [KeyError] on a missing key. *)
Definition dict_index {V} (kv : list (string * V)) (k : string) : res V :=
  match dict_get kv k with Some v => Ok v | None => Err KeyError end.

(** [obj.get(k, default)] on an arbitrary value: only dicts have [.get]. *)
Definition py_get (o : pyval) (k : string) (d : pyval) : res pyval :=
  match o with
  | PDict kv => Ok (dict_get_default kv k d)
  | _ => Err AttributeError
  end.

(** [isinstance(v, (int, float))] (a bool is an int), with the value. *)
Definition as_number (v : pyval) : option Q :=
  match v with
  | PBool b => Some (if b then 1 else 0)%Q
  | PInt z => Some (inject_Z z)
  | PFloat q => Some q
  | _ => None
  end.

(** [for x in v]: lists, the keys of dicts and the characters of strings
    are iterable, anything else raises [TypeError]. *)
Definition py_iter (v : pyval) : res (list pyval) :=
  match v with
  | PList l => Ok l
  | PDict kv => Ok (map (fun kv1 => PStr (fst kv1)) kv)
  | PStr s => Ok (map (fun c => PStr (String c EmptyString)) (list_ascii_of_string s))
  | _ => Err TypeError
  end.

(** [str.lower()] on ASCII text. *)
Definition ascii_lower (c : ascii) : ascii :=
  let n := nat_of_ascii c in
  if (65 <=? n)%nat && (n <=? 90)%nat then ascii_of_nat (n + 32)%nat else c.

Fixpoint lower (s : string) : string :=
  match s with
  | EmptyString => EmptyString
  | String c s' => String (ascii_lower c) (lower s')
  end.

(** [needle in hay] on strings. *)
Fixpoint contains (needle hay : string) : bool :=
  String.prefix needle hay ||
  match hay with
  | EmptyString => false
  | String _ hay' => contains needle hay'
  end.

(** [a < b] and [a <= b] on numbers. *)
Definition Qltb (a b : Q) : bool := negb (Qle_bool b a).
Definition Qleb (a b : Q) : bool := Qle_bool a b.

End Py.

Import Py.

(* --------------------------------------------------------------------- *)
(* plugins/alerts/automata_alert_engine.py                               *)
(* --------------------------------------------------------------------- *)
Module AlertEngine.

(** [ALERT_CONFIG]. *)
Definition retry_attempts : nat := 3.
Definition retry_backoff : Q := 2.
Definition alert_cooldown_minutes : Q := 5.

(** [EQUIPMENT_ALERT_THRESHOLDS]: category -> threshold table. *)
Definition EQUIPMENT_ALERT_THRESHOLDS : list (string * list (string * Q)) :=
  [("boiler",
     [("critical_temp", 200); ("high_temp", 180);
      ("low_efficiency", 70); ("high_pressure", 150)]);
   ("chiller",
     [("critical_temp", 55); ("high_temp", 50);
      ("low_efficiency", 65); ("low_refrigerant", 20)]);
   ("air-handler",
     [("critical_temp", 90); ("high_temp", 85);
      ("low_airflow", 500); ("filter_pressure_diff", 2)]);
   ("pump",
     [("critical_temp", 130); ("high_temp", 120);
      ("low_pressure", 10); ("high_vibration", 5)]);
   ("fancoil",
     [("critical_temp", 95); ("high_temp", 90); ("low_efficiency", 60)])]%Q.

(** [determine_equipment_type] on the lowered id: first match wins. *)
Definition determine_equipment_type (equipment_id : string) : string :=
  let equipment_id_lower := lower equipment_id in
  if contains "boiler" equipment_id_lower then "boiler"
  else if contains "chiller" equipment_id_lower then "chiller"
  else if contains "pump" equipment_id_lower then "pump"
  else if contains "ahu" equipment_id_lower || contains "air" equipment_id_lower
  then "air-handler"
  else if contains "fancoil" equipment_id_lower || contains "fan" equipment_id_lower
  then "fancoil"
  else if contains "geo" equipment_id_lower then "geo"
  else "unknown".

(** The call [determine_equipment_type(equipment_id)] on any value:
    [.lower()] exists on strings only. *)
Definition determine_equipment_type_py (equipment_id : pyval) : res string :=
  match equipment_id with
  | PStr s => Ok (determine_equipment_type s)
  | _ => Err AttributeError
  end.

(** An alert dict.  [message] (a human string) and [timestamp] are left
    out; the keys a candidate may lack are options. *)
Record alert := mkAlert {
  al_severity : string;
  al_type : string;
  al_value : Q;
  al_threshold : Q;
  al_equipment_id : option pyval;
  al_location_id : option pyval;
  al_equipment_type : option string;
  al_health_status : option pyval;
  al_source : string
}.

(** A temperature alert as built inside [process_equipment_alerts],
    before [alert.update(...)]. *)
Definition temperature_alert (severity : string) (v thr : Q) : alert :=
  mkAlert severity "HIGH_TEMPERATURE" v thr None None None None "".

(** [alerts.sort(key=lambda x: 0 if x["severity"] == "CRITICAL" else 1)]:
    a stable sort on a 0/1 key. *)
Definition sort_by_severity (alerts : list alert) : list alert :=
  List.filter (fun a => String.eqb (al_severity a) "CRITICAL") alerts ++
  List.filter (fun a => negb (String.eqb (al_severity a) "CRITICAL")) alerts.

(** The body of [process_equipment_alerts], inside its [try]. *)
Definition process_equipment_alerts_body (row : pyval) : res (option alert) :=
  equipment_id ← py_get row "equipmentId" PNone;
  location_id ← py_get row "location_id" PNone;
  if negb (truthy equipment_id) || negb (truthy location_id) then Ok None else
  equipment_type ← determine_equipment_type_py equipment_id;
  let thresholds := dict_get_default EQUIPMENT_ALERT_THRESHOLDS equipment_type [] in
  d_supply ← py_get row "Supply_Temp" (PInt 0);
  d_water ← py_get row "Water_Temp" d_supply;
  temperature ← py_get row "temperature" d_water;
  alerts ←
    (if truthy temperature then
       match as_number temperature with
       | Some v =>
         if Qltb (dict_get_default thresholds "critical_temp" 999%Q) v then
           (* the message reads thresholds['critical_temp'] *)
           c ← dict_index thresholds "critical_temp";
           Ok [temperature_alert "CRITICAL" v c]
         else if Qltb (dict_get_default thresholds "high_temp" 999%Q) v then
           (* the message reads thresholds['high_temp'] *)
           h ← dict_index thresholds "high_temp";
           Ok [temperature_alert "WARNING" v h]
         else Ok []
       | None => Ok []
       end
     else Ok []);
  match sort_by_severity alerts with
  | a :: _ =>
    Ok (Some {| al_severity := al_severity a; al_type := al_type a;
                al_value := al_value a; al_threshold := al_threshold a;
                al_equipment_id := Some equipment_id;
                al_location_id := Some location_id;
                al_equipment_type := Some equipment_type;
                al_health_status := None;
                al_source := "equipment_monitoring" |})
  | [] => Ok None
  end.

(** [process_equipment_alerts]: any exception yields [None]. *)
Definition process_equipment_alerts (row : pyval) : option alert :=
  match process_equipment_alerts_body row with
  | Ok r => r
  | Err _ => None
  end.

(** The temperature read by [process_equipment_alerts]. *)
Definition extracted_temperature (kv : list (string * pyval)) : pyval :=
  dict_get_default kv "temperature"
    (dict_get_default kv "Water_Temp" (dict_get_default kv "Supply_Temp" (PInt 0))).

(** [format(v, ".1f")] and the like: numbers format, a string raises
    [ValueError], any other value [TypeError]. *)
Definition format_f (v : pyval) : res unit :=
  match as_number v, v with
  | Some _, _ => Ok tt
  | None, PStr _ => Err ValueError
  | None, _ => Err TypeError
  end.

(** The body of [process_health_alerts], inside its [try]. *)
Definition process_health_alerts_body (row : pyval) : res (option alert) :=
  equipment_id ← py_get row "equipment_id" PNone;
  location_id ← py_get row "location_id" PNone;
  health_score ← py_get row "health_score" (PInt 100);
  health_status ← py_get row "health_status" (PStr "unknown");
  if negb (truthy equipment_id) then Ok None else
  match as_number health_score with
  | None => Ok None
  | Some h =>
    if Qltb h 20 then
      Ok (Some (mkAlert "CRITICAL" "EQUIPMENT_HEALTH_CRITICAL" h 20
                  (Some equipment_id) (Some location_id) None
                  (Some health_status) "predictive_maintenance"))
    else if Qltb h 40 then
      Ok (Some (mkAlert "WARNING" "EQUIPMENT_HEALTH_LOW" h 40
                  (Some equipment_id) (Some location_id) None
                  (Some health_status) "predictive_maintenance"))
    else Ok None
  end.

Definition process_health_alerts (row : pyval) : option alert :=
  match process_health_alerts_body row with
  | Ok r => r
  | Err _ => None
  end.

(** The body of [process_energy_alerts], inside its [try]. *)
Definition process_energy_alerts_body (row : pyval) : res (option alert) :=
  location_id ← py_get row "location_id" PNone;
  total_power_kw ← py_get row "total_power_kw" (PInt 0);
  hourly_cost ← py_get row "hourly_cost" (PInt 0);
  average_efficiency ← py_get row "average_efficiency" (PInt 100);
  if negb (truthy location_id) then Ok None else
  match as_number total_power_kw with
  | Some p =>
    if Qltb 500 p then
      (* the message formats total_power_kw:.1f and hourly_cost:.2f *)
      _ ← format_f total_power_kw;
      _ ← format_f hourly_cost;
      Ok (Some (mkAlert "WARNING" "HIGH_ENERGY_CONSUMPTION" p 500
                  None (Some location_id) None None "energy_optimization"))
    else Ok None
  | None => Ok None
  end ≫= fun r =>
  match r with
  | Some a => Ok (Some a)
  | None =>
    match as_number average_efficiency with
    | Some e =>
      if Qltb e 70 then
        _ ← format_f average_efficiency;
        Ok (Some (mkAlert "WARNING" "LOW_ENERGY_EFFICIENCY" e 70
                    None (Some location_id) None None "energy_optimization"))
      else Ok None
    | None => Ok None
    end
  end.

Definition process_energy_alerts (row : pyval) : option alert :=
  match process_energy_alerts_body row with
  | Ok r => r
  | Err _ => None
  end.

(** What one HTTP POST gives back, as the code observes it:
    a response with its status code, [body_ok] telling whether reading
    its JSON body ([response.json()], [.get]) succeeds; or an exception
    raised by httpx (timeout, connection error, malformed URL). *)
Inductive http_outcome :=
| HResp (status_code : Z) (body_ok : bool)
| HRaise.

(** Observable effects of a dispatch: POSTs per channel, sleeps between
    retries, and the write of the alert history line. *)
Inductive event :=
| EPost (channel : string)
| ESleep (seconds : Q)
| EHistory.

(** The network's answers for one alert: one per BMS-API attempt, one
    for Slack and one for Discord. *)
Record network := mkNetwork {
  net_bms_api : nat -> http_outcome;
  net_slack : http_outcome;
  net_discord : http_outcome
}.

(** The retry loop of [send_resend_notification]:
    [for attempt in range(ALERT_CONFIG["retry_attempts"])]. *)
Fixpoint bms_api_loop (net : nat -> http_outcome) (attempts : list nat)
    : bool * list event :=
  match attempts with
  | [] => (false, [])
  | attempt :: rest =>
    (* in the except branch: sleep unless this was the last attempt *)
    let backoff :=
      if (attempt <? retry_attempts - 1)%nat
      then [ESleep (retry_backoff ^ Z.of_nat attempt)] else [] in
    match net attempt with
    | HResp code body_ok =>
      if Z.eqb code 200 then
        if body_ok then (true, [EPost "bms_api"])
        else let '(ok, ev) := bms_api_loop net rest in
             (ok, EPost "bms_api" :: backoff ++ ev)
      else
        (* non-200: the error is logged, no sleep *)
        let '(ok, ev) := bms_api_loop net rest in (ok, EPost "bms_api" :: ev)
    | HRaise =>
      let '(ok, ev) := bms_api_loop net rest in
      (ok, EPost "bms_api" :: backoff ++ ev)
    end
  end.

(** Python [a or b]. *)
Definition py_or (a b : pyval) : pyval := if truthy a then a else b.

(** [os.getenv(k)] under an environment. *)
Definition getenv (env : string -> option string) (k : string) : pyval :=
  match env k with Some s => PStr s | None => PNone end.

(** The number of POSTs to [channel] among the effects. *)
Definition posts_to (channel : string) (ev : list event) : nat :=
  length (List.filter (fun e => match e with EPost c => String.eqb c channel | _ => false end) ev).

(** The effects the BMS API channel can produce: its POSTs and the
    back-off sleeps of its retry loop. *)
Definition bms_event (e : event) : Prop := e = EPost "bms_api" \/ exists q, e = ESleep q.

(** [send_resend_notification]: no recipient, no request. *)
Definition send_resend_notification (env : string -> option string)
    (alert_config : list (string * pyval)) (net : nat -> http_outcome)
    : bool * list event :=
  let recipient_email :=
    py_or (dict_get_default alert_config "recipient_email" PNone)
          (getenv env "DEFAULT_RECIPIENT") in
  if negb (truthy recipient_email) then (false, [])
  else bms_api_loop net (seq 0 retry_attempts).

(** [send_slack_notification]: one POST, success on 200. *)
Definition send_slack_notification (outcome : http_outcome) : bool * list event :=
  (match outcome with HResp code _ => Z.eqb code 200 | HRaise => false end,
   [EPost "slack"]).

(** [send_discord_notification]: one POST, success on 204. *)
Definition send_discord_notification (outcome : http_outcome) : bool * list event :=
  (match outcome with HResp code _ => Z.eqb code 204 | HRaise => false end,
   [EPost "discord"]).

(** The cooldown window in seconds. *)
Definition cooldown_seconds : Q := alert_cooldown_minutes * 60.

Section Dispatch.

(** Python's [str()] of a subject value, as used in the f-string key. *)
Variable py_str : pyval -> string.
(** The process environment read by [os.getenv]. *)
Variable env : string -> option string.

(** [alert.get('equipment_id', alert.get('location_id', 'unknown'))]. *)
Definition alert_subject (a : alert) : pyval :=
  match al_equipment_id a with
  | Some v => v
  | None => match al_location_id a with Some v => v | None => PStr "unknown" end
  end.

(** [alert_key = f"{subject}_{alert['type']}"]. *)
Definition alert_key (a : alert) : string :=
  py_str (alert_subject a) ++ "_" ++ al_type a.

(** The cooldown check of [send_alert_notification]: [true] when the
    alert may fire. *)
Definition cooldown_allows (last_alert_times : gmap string Q) (key : string)
    (current_time : Q) : bool :=
  match last_alert_times !! key with
  | Some last => negb (Qltb (current_time - last) cooldown_seconds)
  | None => true
  end.

(** [send_alert_notification]: returns the result, the new
    [last_alert_times] and the effects. *)
Definition send_alert_notification (last_alert_times : gmap string Q)
    (alert_config : list (string * pyval)) (net : network)
    (current_time : Q) (a : alert) : bool * gmap string Q * list event :=
  let key := alert_key a in
  if negb (cooldown_allows last_alert_times key current_time)
  then (false, last_alert_times, [])
  else
    let last_alert_times' := <[key := current_time]> last_alert_times in
    let '(r1, ev1) := send_resend_notification env alert_config (net_bms_api net) in
    let slack_webhook :=
      py_or (dict_get_default alert_config "slack_webhook_url" PNone)
            (getenv env "SLACK_WEBHOOK_URL") in
    let '(r2, ev2) :=
      if truthy slack_webhook then send_slack_notification (net_slack net)
      else (false, []) in
    let discord_webhook :=
      py_or (dict_get_default alert_config "discord_webhook_url" PNone)
            (getenv env "DISCORD_WEBHOOK_URL") in
    let '(r3, ev3) :=
      if truthy discord_webhook then send_discord_notification (net_discord net)
      else (false, []) in
    let ev4 :=
      if truthy (dict_get_default alert_config "alerts_db" PNone)
      then [EHistory] else [] in
    (r1 || r2 || r3, last_alert_times', (ev1 ++ ev2 ++ ev3 ++ ev4)%list).

End Dispatch.

(** [str.split(sep)] with a one-character separator. *)
Fixpoint split_on (sep : ascii) (s : string) : list string :=
  match s with
  | EmptyString => [EmptyString]
  | String c s' =>
    match split_on sep s' with
    | w :: ws =>
      if Ascii.eqb c sep then EmptyString :: w :: ws else String c w :: ws
    | [] => []
    end
  end.

(** [str.split(sep, 1)] when [sep in s]. *)
Fixpoint split_once (sep : ascii) (s : string) : option (string * string) :=
  match s with
  | EmptyString => None
  | String c s' =>
    if Ascii.eqb c sep then Some (EmptyString, s')
    else match split_once sep s' with
         | Some (a, b) => Some (String c a, b)
         | None => None
         end
  end.

(** The characters [str.strip()] removes (code points below 256). *)
Definition is_space (c : ascii) : bool :=
  let n := nat_of_ascii c in
  (((9 <=? n) && (n <=? 13)) || ((28 <=? n) && (n <=? 32)) ||
   (n =? 133) || (n =? 160))%nat.

Fixpoint drop_spaces (l : list ascii) : list ascii :=
  match l with
  | c :: l' => if is_space c then drop_spaces l' else l
  | [] => []
  end.

(** [str.strip()]. *)
Definition strip (s : string) : string :=
  string_of_list_ascii
    (rev (drop_spaces (rev (drop_spaces (list_ascii_of_string s))))).

(** [d[k] = v]: replaces the value of an existing key in place, appends
    a new key. *)
Fixpoint dict_set {V} (kv : list (string * V)) (k : string) (v : V)
    : list (string * V) :=
  match kv with
  | [] => [(k, v)]
  | (k', v') :: kv' =>
    if String.eqb k k' then (k, v) :: kv' else (k', v') :: dict_set kv' k v
  end.

(** [parse_alert_arguments]. *)
Definition parse_alert_arguments (args : pyval) : list (string * pyval) :=
  if truthy args then
    match args with
    | PDict kv => kv
    | PStr s =>
      fold_left
        (fun config arg =>
           match split_once "=" arg with
           | Some (key, value) => dict_set config (strip key) (PStr (strip value))
           | None => config
           end)
        (split_on "," s) []
    | _ => []
    end
  else [].

(** [v == s] for a string constant [s]. *)
Definition py_eq_str (v : pyval) (s : string) : bool :=
  match v with PStr s' => String.eqb s' s | _ => false end.

(** The module-level state the engine keeps across calls
    ([last_alert_times]) and what it has done so far. *)
Record engine_state := mkEngineState {
  last_alert_times : gmap string Q;
  sends : nat;
  events : list event
}.

(** How a call of [process_writes] ends: its final log line. *)
Inductive run_outcome :=
| Completed (alerts_generated notifications_sent : nat)
| LoggedError (e : exn).

Section Engine.

Variable py_str : pyval -> string.
Variable env : string -> option string.
(** [time.time()] at the n-th call of [send_alert_notification]. *)
Variable clock : nat -> Q.
(** The network's answers to the n-th call of [send_alert_notification]. *)
Variable nets : nat -> network.

(** One call of [send_alert_notification] on the engine state. *)
Definition dispatch (alert_config : list (string * pyval)) (s : engine_state)
    (a : alert) : bool * engine_state :=
  let '(ok, times', ev) :=
    send_alert_notification py_str env (last_alert_times s) alert_config
      (nets (sends s)) (clock (sends s)) a in
  (ok, mkEngineState times' (S (sends s)) (events s ++ ev)%list).

(** [for row in rows: alert_result = process(...); if alert_result: ...]. *)
Fixpoint handle_rows (process : pyval -> option alert)
    (alert_config : list (string * pyval)) (counts : nat * nat)
    (s : engine_state) (rows : list pyval) : (nat * nat) * engine_state :=
  match rows with
  | [] => (counts, s)
  | row :: rows' =>
    match process row with
    | Some a =>
      let '(ok, s') := dispatch alert_config s a in
      handle_rows process alert_config
        (S (fst counts), if ok then S (snd counts) else snd counts) s' rows'
    | None => handle_rows process alert_config counts s rows'
    end
  end.

(** The handler [process_writes] picks for a table name. *)
Definition handler_for (table_name : pyval) : option (pyval -> option alert) :=
  if py_eq_str table_name "metrics" then Some process_equipment_alerts
  else if py_eq_str table_name "equipment_health" then Some process_health_alerts
  else if py_eq_str table_name "energy_consumption" then Some process_energy_alerts
  else None.

(** [for table_batch in table_batches: ...] inside the [try] of
    [process_writes]: an exception leaves the loop with the state
    reached so far. *)
Fixpoint process_batches (alert_config : list (string * pyval))
    (counts : nat * nat) (s : engine_state) (batches : list pyval)
    : engine_state * res (nat * nat) :=
  match batches with
  | [] => (s, Ok counts)
  | table_batch :: batches' =>
    match py_get table_batch "table_name" (PStr "") with
    | Err e => (s, Err e)
    | Ok table_name =>
      match py_get table_batch "rows" (PList []) with
      | Err e => (s, Err e)
      | Ok rows =>
        match handler_for table_name with
        | None => process_batches alert_config counts s batches'
        | Some process =>
          match py_iter rows with
          | Err e => (s, Err e)
          | Ok rows_l =>
            let '(counts', s') := handle_rows process alert_config counts s rows_l in
            process_batches alert_config counts' s' batches'
          end
        end
      end
    end
  end.

(** [process_writes]: the entry point; every exception is caught and
    logged. *)
Definition process_writes (s : engine_state) (table_batches args : pyval)
    : engine_state * run_outcome :=
  let alert_config := parse_alert_arguments args in
  match py_iter table_batches with
  | Err e => (s, LoggedError e)
  | Ok batches =>
    match process_batches alert_config (0, 0)%nat s batches with
    | (s', Ok (alerts_generated, notifications_sent)) =>
      (s', Completed alerts_generated notifications_sent)
    | (s', Err e) => (s', LoggedError e)
    end
  end.

End Engine.

(** The table batches of a call as (table name, rows) pairs, in the
    shape the host passes them. *)
Definition batches_of (batches : list (string * list pyval)) : pyval :=
  PList (map (fun b => PDict [("table_name", PStr (fst b)); ("rows", PList (snd b))])
             batches).

(** The rows for which an evaluator returns a candidate. *)
Definition count_candidates (process : pyval -> option alert) (rows : list pyval) : nat :=
  length (List.filter (fun row => match process row with Some _ => true | None => false end) rows).

(** The rows of handled tables whose evaluator returns a candidate. *)
Definition candidates_in (batches : list (string * list pyval)) : nat :=
  fold_right
    (fun b n =>
       match handler_for (PStr (fst b)) with
       | Some process => count_candidates process (snd b) + n
       | None => n
       end)%nat 0%nat batches.


End AlertEngine.

(* --------------------------------------------------------------------- *)
(* plugins/analytics/predictive_maintenance_plugin.py                    *)
(* --------------------------------------------------------------------- *)
Module PredictiveMaintenance.

Local Open Scope Q_scope.

(** [HEALTH_SCORE_THRESHOLDS]. *)
Definition HEALTH_SCORE_THRESHOLDS : list (string * Q) :=
  [("excellent", 90); ("good", 75); ("fair", 60); ("poor", 40); ("critical", 20)]%Q.

(** [HEALTH_SCORE_THRESHOLDS[k]] for the keys the code reads. *)
Definition threshold (k : string) : Q := dict_get_default HEALTH_SCORE_THRESHOLDS k 0%Q.

(** One entry of [EQUIPMENT_PARAMETERS]. *)
Record equipment_parameters := mkParams {
  critical_metrics : list string;
  efficiency_baseline : Q;
  max_operating_temp : Q;
  failure_indicators : list string
}.

Definition EQUIPMENT_PARAMETERS : list (string * equipment_parameters) :=
  [("boiler", mkParams ["Water_Temp"; "waterTemp"; "temperature"; "pressure"]
                 85 200 ["rapid_temp_change"; "pressure_spike"; "efficiency_drop"]);
   ("chiller", mkParams ["Chilled_Water_Temp"; "SupplyTemp"; "temperature"]
                 75 50 ["refrigerant_leak"; "compressor_issue"; "low_efficiency"]);
   ("air-handler", mkParams ["Supply_Air_Temp"; "Supply_Temp"; "OutdoorTemp"]
                 80 85 ["fan_bearing_wear"; "filter_clog"; "motor_overload"]);
   ("pump", mkParams ["water_temp"; "Supply_Temp"; "pressure"]
                 70 120 ["cavitation"; "bearing_wear"; "seal_failure"]);
   ("fancoil", mkParams ["temperature"; "Supply_Temp"]
                 75 90 ["motor_wear"; "valve_sticking"; "coil_fouling"]);
   ("geo", mkParams ["LoopTemp"; "Loop_Temp"]
                 85 60 ["loop_leak"; "compressor_issue"; "ground_loop_problem"])]%Q.

(** [determine_equipment_type] (this plugin's copy). *)
Definition determine_equipment_type (equipment_id : string) : string :=
  if contains "boiler" (lower equipment_id) then "boiler"
  else if contains "chiller" (lower equipment_id) then "chiller"
  else if contains "pump" (lower equipment_id) then "pump"
  else if contains "ahu" (lower equipment_id) || contains "air" (lower equipment_id)
  then "air-handler"
  else if contains "fancoil" (lower equipment_id) || contains "fan" (lower equipment_id)
  then "fancoil"
  else if contains "geo" (lower equipment_id) then "geo"
  else "unknown".

Definition determine_equipment_type_py (equipment_id : pyval) : res string :=
  match equipment_id with
  | PStr s => Ok (determine_equipment_type s)
  | _ => Err AttributeError
  end.

(** The temperature step of [calculate_temperature_health] on the
    average temperature. *)
Definition temperature_band (avg_temp max_temp : Q) : Q :=
  if Qleb avg_temp (max_temp * (8 # 10)) then 100
  else if Qleb avg_temp (max_temp * (9 # 10)) then 85
  else if Qleb avg_temp max_temp then 70
  else 30.

(** [calculate_efficiency_health], [calculate_trend_health],
    [calculate_operational_health]: constant placeholders. *)
Definition calculate_efficiency_health (metrics : list (string * pyval))
    (baseline_efficiency : Q) : Q := 80.
Definition calculate_trend_health (equipment_id : pyval)
    (metrics : list (string * pyval)) : Q := 75.
Definition calculate_operational_health (metrics : list (string * pyval))
    (equipment_type : string) : Q := 80.

(** The weighted health score of [analyze_equipment_health]. *)
Definition weighted_health (temperature_health efficiency_health trend_health
    operational_health : Q) : Q :=
  temperature_health * (25 # 100) + efficiency_health * (25 # 100) +
  trend_health * (30 # 100) + operational_health * (20 # 100).

(** [get_health_status]. *)
Definition get_health_status (health_score : Q) : string :=
  if Qleb (threshold "excellent") health_score then "excellent"
  else if Qleb (threshold "good") health_score then "good"
  else if Qleb (threshold "fair") health_score then "fair"
  else if Qleb (threshold "poor") health_score then "poor"
  else "critical".

(** Python's [round(x, 2)]: to the nearest hundredth, ties to even. *)
Definition round2 (x : Q) : Q :=
  let y := x * 100 in
  let f := Qfloor y in
  let r := y - inject_Z f in
  let n :=
    if Qltb r (1 # 2) then f
    else if Qltb (1 # 2) r then (f + 1)%Z
    else if Z.even f then f else (f + 1)%Z in
  inject_Z n / 100.

(** The dict returned by [analyze_equipment_health]; the error and
    "unknown" dicts lack the sub-scores. *)
Record health_analysis := mkAnalysis {
  health_score : Q;
  status : string;
  temperature_health : option Q;
  efficiency_health : option Q;
  trend_health : option Q;
  operational_health : option Q;
  equipment_type : option string
}.

Section Health.

(** [float(s)] on a string: [None] when it raises [ValueError]. *)
Variable parse_float : string -> option Q.

(** [float(v)]. *)
Definition py_float (v : pyval) : res Q :=
  match v with
  | PBool b => Ok (if b then 1 else 0)%Q
  | PInt z => Ok (inject_Z z)
  | PFloat q => Ok q
  | PStr s => match parse_float s with Some q => Ok q | None => Err ValueError end
  | _ => Err TypeError
  end.

(** [for metric in critical_metrics: if metric in metrics:
    temps.append(float(metrics[metric]))]. *)
Fixpoint collect_temps (metrics : list (string * pyval)) (critical_metrics : list string)
    : res (list Q) :=
  match critical_metrics with
  | [] => Ok []
  | metric :: rest =>
    match dict_get metrics metric with
    | Some v => t ← py_float v; temps ← collect_temps metrics rest; Ok (t :: temps)
    | None => collect_temps metrics rest
    end
  end.

(** [calculate_temperature_health]. *)
Definition calculate_temperature_health (metrics : list (string * pyval))
    (critical_metrics : list string) (max_temp : Q) : res Q :=
  temps ← collect_temps metrics critical_metrics;
  match temps with
  | [] => Ok 75%Q
  | _ =>
    let avg_temp := fold_left Qplus temps 0 / inject_Z (Z.of_nat (length temps)) in
    Ok (temperature_band avg_temp max_temp)
  end.

(** The body of [analyze_equipment_health], inside its [try] (the
    rolling history it appends to is not read by any result). *)
Definition analyze_equipment_health_body (equipment_id : pyval)
    (metrics : list (string * pyval)) : res health_analysis :=
  equipment_type ← determine_equipment_type_py equipment_id;
  if String.eqb equipment_type "" then
    Ok (mkAnalysis 50 "unknown" None None None None None)
  else
  let params := dict_get EQUIPMENT_PARAMETERS equipment_type in
  let critical_metrics := match params with Some p => critical_metrics p | None => [] end in
  let efficiency_baseline := match params with Some p => efficiency_baseline p | None => 75%Q end in
  let max_temp := match params with Some p => max_operating_temp p | None => 100%Q end in
  temperature_health ← calculate_temperature_health metrics critical_metrics max_temp;
  let efficiency_health := calculate_efficiency_health metrics efficiency_baseline in
  let trend_health := calculate_trend_health equipment_id metrics in
  let operational_health := calculate_operational_health metrics equipment_type in
  let health_score :=
    weighted_health temperature_health efficiency_health trend_health operational_health in
  let health_status := get_health_status health_score in
  Ok (mkAnalysis (round2 health_score) health_status
        (Some (round2 temperature_health)) (Some (round2 efficiency_health))
        (Some (round2 trend_health)) (Some (round2 operational_health))
        (Some equipment_type)).

(** [analyze_equipment_health]: an exception yields score 50, "error". *)
Definition analyze_equipment_health (equipment_id : pyval)
    (metrics : list (string * pyval)) : health_analysis :=
  match analyze_equipment_health_body equipment_id metrics with
  | Ok r => r
  | Err _ => mkAnalysis 50 "error" None None None None None
  end.

(** What [process_writes] has done so far: rows analysed, the counter
    [alerts_generated], and the equipment ids passed to
    [generate_maintenance_alert]. *)
Record pm_state := mkPmState {
  processed_equipment : nat;
  alerts_generated : nat;
  maintenance_alerts : list pyval
}.

(** [for row in rows: ...] of this plugin's [process_writes].
    [predict_equipment_failure], [update_maintenance_schedule] and
    [write_maintenance_analytics] catch their own exceptions and do not
    feed the alert guard; the first two are embedded on their own below,
    the analytics write is left out. *)
Fixpoint pm_handle_rows (s : pm_state) (rows : list pyval) : pm_state * res unit :=
  match rows with
  | [] => (s, Ok tt)
  | row :: rows' =>
    match row with
    | PDict kv =>
      let equipment_id := dict_get_default kv "equipmentId" PNone in
      let location_id := dict_get_default kv "location_id" PNone in
      if truthy equipment_id && truthy location_id then
        let analysis := analyze_equipment_health equipment_id kv in
        let s1 := mkPmState (S (processed_equipment s)) (alerts_generated s)
                    (maintenance_alerts s) in
        let s2 :=
          if Qltb (health_score analysis) (threshold "poor")
          then mkPmState (processed_equipment s1) (S (alerts_generated s1))
                 (maintenance_alerts s1 ++ [equipment_id])
          else s1 in
        pm_handle_rows s2 rows'
      else pm_handle_rows s rows'
    | _ => (s, Err AttributeError)
    end
  end.

Fixpoint pm_process_batches (s : pm_state) (batches : list pyval) : pm_state * res unit :=
  match batches with
  | [] => (s, Ok tt)
  | table_batch :: batches' =>
    match py_get table_batch "table_name" (PStr ""), py_get table_batch "rows" (PList []) with
    | Err e, _ | Ok _, Err e => (s, Err e)
    | Ok table_name, Ok rows =>
      if negb (AlertEngine.py_eq_str table_name "metrics")
      then pm_process_batches s batches'
      else
        match py_iter rows with
        | Err e => (s, Err e)
        | Ok rows_l =>
          match pm_handle_rows s rows_l with
          | (s', Ok _) => pm_process_batches s' batches'
          | (s', Err e) => (s', Err e)
          end
        end
    end
  end.

(** This plugin's [process_writes]: the final state; exceptions are
    logged by the entry point. *)
Definition process_writes (table_batches : pyval) : pm_state :=
  let s0 := mkPmState 0 0 [] in
  match py_iter table_batches with
  | Err _ => s0
  | Ok batches => fst (pm_process_batches s0 batches)
  end.

End Health.

(** [hash(v)] succeeds: lists and dicts are unhashable, so using one as a
    dict key raises [TypeError]. *)
Definition hashable (v : pyval) : bool :=
  match v with PList _ | PDict _ => false | _ => true end.

(** [health_analysis.get("equipment_type", "unknown")]. *)
Definition analysis_type (a : health_analysis) : string :=
  match equipment_type a with Some t => t | None => "unknown" end.

(** [identify_failure_modes]. *)
Definition identify_failure_modes (equipment_type : string) (a : health_analysis)
    : list string :=
  let indicators :=
    match dict_get EQUIPMENT_PARAMETERS equipment_type with
    | Some p => failure_indicators p
    | None => []
    end in
  if Qltb (health_score a) 50 then indicators
  else if Qltb (health_score a) 70 then
    [match indicators with i :: _ => i | [] => "general_wear" end]
  else [].

(** [generate_maintenance_recommendation]. *)
Definition generate_maintenance_recommendation (equipment_type : string)
    (failure_probability : Z) (failure_modes : list string) : string :=
  if (60 <=? failure_probability)%Z then
    "URGENT: Schedule immediate inspection for " ++ equipment_type ++
    ". Potential issues: " ++ String.concat ", " failure_modes
  else if (35 <=? failure_probability)%Z then
    "Schedule priority maintenance for " ++ equipment_type ++ " within 1 week"
  else if (15 <=? failure_probability)%Z then
    "Schedule routine maintenance for " ++ equipment_type ++ " within 1 month"
  else "Continue normal maintenance schedule for " ++ equipment_type.

(** The dict returned by [predict_equipment_failure]; the fallback dict of
    its [except] branch has no time to failure and no failure modes. *)
Record failure_prediction := mkPrediction {
  failure_probability : Z;
  estimated_time_to_failure_days : option Z;
  maintenance_priority : string;
  potential_failure_modes : option (list string);
  recommendation : string
}.

(** The probability and time-to-failure bands of [predict_equipment_failure]. *)
Definition failure_band (health_score : Q) : Z * Z :=
  if Qleb 85 health_score then (5, 180)%Z
  else if Qleb 70 health_score then (15, 90)%Z
  else if Qleb 50 health_score then (35, 30)%Z
  else if Qleb 30 health_score then (60, 14)%Z
  else (85, 7)%Z.

(** The priority of [predict_equipment_failure]. *)
Definition failure_priority (failure_probability : Z) : string :=
  if (60 <=? failure_probability)%Z then "critical"
  else if (35 <=? failure_probability)%Z then "high"
  else if (15 <=? failure_probability)%Z then "medium"
  else "low".

(** [predict_equipment_failure]: storing the result under
    [failure_predictions[equipment_id]] raises [TypeError] for an
    unhashable id, and the [except] branch returns the fallback dict.
    The stored predictions are not read anywhere. *)
Definition predict_equipment_failure (equipment_id : pyval) (a : health_analysis)
    : failure_prediction :=
  let equipment_type := analysis_type a in
  let '(p, ttf) := failure_band (health_score a) in
  let priority := failure_priority p in
  let failure_modes := identify_failure_modes equipment_type a in
  if hashable equipment_id then
    mkPrediction p (Some ttf) priority (Some failure_modes)
      (generate_maintenance_recommendation equipment_type p failure_modes)
  else mkPrediction 25 None "medium" None "Standard maintenance".

(** [generate_maintenance_tasks]: the base tasks of the type, then one
    task per failure mode that mentions a bearing, a leak or efficiency. *)
Definition base_tasks : list (string * list string) :=
  [("boiler", ["Inspect burner"; "Check water levels"; "Test safety systems";
               "Clean heat exchanger"]);
   ("chiller", ["Check refrigerant levels"; "Inspect compressor";
                "Clean condenser coils"; "Test controls"]);
   ("air-handler", ["Replace filters"; "Inspect fan bearings"; "Check belt tension";
                    "Clean coils"]);
   ("pump", ["Check seals"; "Inspect bearings"; "Test pressure"; "Lubricate if required"]);
   ("fancoil", ["Clean coils"; "Check motor"; "Inspect valves"; "Test controls"]);
   ("geo", ["Check loop pressure"; "Inspect compressor"; "Test controls";
            "Monitor refrigerant"])].

Definition task_for_mode (mode : string) : list string :=
  if contains "bearing" mode then ["Replace bearings"]
  else if contains "leak" mode then ["Repair leaks"]
  else if contains "efficiency" mode then ["Performance optimization"]
  else [].

Definition generate_maintenance_tasks (equipment_type : string)
    (fp : failure_prediction) : list string :=
  dict_get_default base_tasks equipment_type ["General inspection"; "Check operation"] ++
  flat_map task_for_mode
    (match potential_failure_modes fp with Some m => m | None => [] end).

(** [calculate_maintenance_duration]. *)
Definition base_duration : list (string * Q) :=
  [("boiler", 4); ("chiller", 6); ("air-handler", 3); ("pump", 2);
   ("fancoil", 3 # 2); ("geo", 5)].

Definition calculate_maintenance_duration (equipment_type maintenance_type : string) : Q :=
  let duration := dict_get_default base_duration equipment_type 3 in
  if String.eqb maintenance_type "emergency_inspection" then duration * (1 # 2)
  else if String.eqb maintenance_type "priority_maintenance" then duration * (3 # 2)
  else if String.eqb maintenance_type "routine_maintenance" then duration
  else duration * (3 # 4).

(** [estimate_maintenance_cost]. *)
Definition base_cost : list (string * Q) :=
  [("boiler", 800); ("chiller", 1200); ("air-handler", 600); ("pump", 400);
   ("fancoil", 300); ("geo", 1000)].

Definition estimate_maintenance_cost (equipment_type maintenance_type : string)
    (tasks : list string) : Q :=
  let cost := dict_get_default base_cost equipment_type 500 in
  let cost :=
    if String.eqb maintenance_type "emergency_inspection" then cost * 2
    else if String.eqb maintenance_type "priority_maintenance" then cost * (3 # 2)
    else cost in
  round2 (cost + inject_Z (Z.of_nat (length tasks)) * 50).

(** The dict returned by [update_maintenance_schedule] (the dates are
    kept as the number of days ahead); the fallback dict of its [except]
    branch has only a type and a priority. *)
Record maintenance_update := mkSchedule {
  next_maintenance_days : option Z;
  maintenance_type : string;
  priority : string;
  estimated_duration_hours : option Q;
  required_tasks : option (list string);
  estimated_cost : option Q
}.

(** The interval and type [update_maintenance_schedule] picks for a
    priority. *)
Definition schedule_for (priority : string) : Z * string :=
  if String.eqb priority "critical" then (3, "emergency_inspection")%Z
  else if String.eqb priority "high" then (7, "priority_maintenance")%Z
  else if String.eqb priority "medium" then (30, "scheduled_maintenance")%Z
  else (90, "routine_maintenance")%Z.

(** [update_maintenance_schedule]: storing the result under
    [maintenance_schedules[equipment_id]] raises [TypeError] for an
    unhashable id, and the [except] branch returns the fallback dict. *)
Definition update_maintenance_schedule (equipment_id : pyval) (a : health_analysis)
    (fp : failure_prediction) : maintenance_update :=
  let equipment_type := analysis_type a in
  let priority := maintenance_priority fp in
  let '(days, mtype) := schedule_for priority in
  let tasks := generate_maintenance_tasks equipment_type fp in
  if hashable equipment_id then
    mkSchedule (Some days) mtype priority
      (Some (calculate_maintenance_duration equipment_type mtype)) (Some tasks)
      (Some (estimate_maintenance_cost equipment_type mtype tasks))
  else mkSchedule None "routine_maintenance" "medium" None None None.

(** The level [generate_maintenance_alert] gives its alert. *)
Definition generate_maintenance_alert_level (a : health_analysis)
    (fp : failure_prediction) : string :=
  if Qltb (health_score a) (threshold "critical") then "critical"
  else if (60 <? failure_probability fp)%Z then "high"
  else "warning".




End PredictiveMaintenance.

(* ===================================================================== *)
(* Facts                                                                 *)
(* ===================================================================== *)

(* --------------------------------------------------------------------- *)
(* Comparisons and truthiness                                            *)
(* --------------------------------------------------------------------- *)
Module PyFacts.

Lemma Qltb_true (a b : Q) : Qltb a b = true <-> (a < b)%Q.
Proof.
  unfold Qltb. rewrite negb_true_iff. split.
  - intros H. apply Qnot_le_lt. intros Hle. apply Qle_bool_iff in Hle. congruence.
  - intros H. destruct (Qle_bool b a) eqn:E; [|reflexivity].
    apply Qle_bool_iff in E. exfalso. apply (Qlt_not_le _ _ H E).
Qed.

Lemma Qltb_false (a b : Q) : Qltb a b = false <-> (b <= a)%Q.
Proof. unfold Qltb. rewrite negb_false_iff. apply Qle_bool_iff. Qed.

Lemma Qleb_true (a b : Q) : Qleb a b = true <-> (a <= b)%Q.
Proof. apply Qle_bool_iff. Qed.

Lemma Qleb_false (a b : Q) : Qleb a b = false <-> (b < a)%Q.
Proof.
  unfold Qleb. split.
  - intros H. apply Qnot_le_lt. intros Hle. apply Qle_bool_iff in Hle. congruence.
  - intros H. destruct (Qle_bool a b) eqn:E; [|reflexivity].
    apply Qle_bool_iff in E. exfalso. apply (Qlt_not_le _ _ H E).
Qed.

(** Case split on every [Qleb] test of the goal, turning each outcome
    into an inequality. *)
Ltac Qleb_cases :=
  repeat match goal with
  | |- context [Qleb ?a ?b] =>
    let E := fresh "E" in
    destruct (Qleb a b) eqn:E; [apply Qleb_true in E|apply Qleb_false in E]
  end.

(** A number is truthy iff it is non-zero. *)
Lemma truthy_number (t : pyval) (v : Q) :
  as_number t = Some v -> truthy t = negb (Qeq_bool v 0).
Proof.
  destruct t; simpl; intros E; inversion E; subst; clear E.
  - destruct b; reflexivity.
  - f_equal. destruct (Z.eqb z 0) eqn:Ez.
    + apply Z.eqb_eq in Ez. subst. reflexivity.
    + symmetry. apply not_true_iff_false. intros Hq.
      apply Qeq_bool_iff in Hq. apply Z.eqb_neq in Ez. apply Ez.
      apply inject_Z_injective. exact Hq.
  - reflexivity.
Qed.

End PyFacts.

(* --------------------------------------------------------------------- *)
(* The alert engine                                                      *)
(* --------------------------------------------------------------------- *)
Module AlertEngineFacts.

Import AlertEngine PyFacts.

(** Every high-temperature threshold of the table is positive. *)
Lemma thresholds_high_pos (k : string) (tbl : list (string * Q)) (H : Q) :
  dict_get EQUIPMENT_ALERT_THRESHOLDS k = Some tbl ->
  dict_get tbl "high_temp" = Some H -> (0 < H)%Q.
Proof.
  unfold EQUIPMENT_ALERT_THRESHOLDS. cbn [dict_get].
  repeat (destruct (String.eqb k _);
          [intros E; inversion E; subst; cbn; intros E'; inversion E'; subst; reflexivity|]).
  discriminate.
Qed.

(** C1: for a metrics row whose category has [critical_temp = C] and
    [high_temp = H] with [H < C], and whose extracted temperature is [v]:
    [v > C] gives one CRITICAL candidate of kind HIGH_TEMPERATURE with
    value [v] and threshold [C]; [H < v <= C] gives one WARNING candidate
    with threshold [H]; [v <= H] gives no candidate. *)
Theorem process_equipment_alerts_temperature_bands
    (kv : list (string * pyval)) (eid : string) (loc : pyval)
    (tbl : list (string * Q)) (C H v : Q) :
  dict_get kv "equipmentId" = Some (PStr eid) -> eid <> "" ->
  dict_get kv "location_id" = Some loc -> truthy loc = true ->
  dict_get EQUIPMENT_ALERT_THRESHOLDS (determine_equipment_type eid) = Some tbl ->
  dict_get tbl "critical_temp" = Some C -> dict_get tbl "high_temp" = Some H ->
  (H < C)%Q ->
  as_number (extracted_temperature kv) = Some v ->
  ((C < v)%Q ->
     exists a, process_equipment_alerts (PDict kv) = Some a /\
       al_severity a = "CRITICAL" /\ al_type a = "HIGH_TEMPERATURE" /\
       al_value a = v /\ al_threshold a = C) /\
  ((H < v)%Q -> (v <= C)%Q ->
     exists a, process_equipment_alerts (PDict kv) = Some a /\
       al_severity a = "WARNING" /\ al_type a = "HIGH_TEMPERATURE" /\
       al_value a = v /\ al_threshold a = H) /\
  ((v <= H)%Q -> process_equipment_alerts (PDict kv) = None).
Proof.
  intros Heid Hne Hloc Hloct Htbl HC HH HHC Hv.
  assert (Hpos : (0 < H)%Q) by (eapply thresholds_high_pos; eauto).
  assert (Htr := truthy_number _ _ Hv).
  assert (E1 : dict_get_default kv "equipmentId" PNone = PStr eid)
    by (unfold dict_get_default; rewrite Heid; reflexivity).
  assert (E2 : dict_get_default kv "location_id" PNone = loc)
    by (unfold dict_get_default; rewrite Hloc; reflexivity).
  assert (E3 : dict_get_default EQUIPMENT_ALERT_THRESHOLDS (determine_equipment_type eid) [] = tbl)
    by (unfold dict_get_default; rewrite Htbl; reflexivity).
  assert (E4 : dict_get_default tbl "critical_temp" 999%Q = C)
    by (unfold dict_get_default; rewrite HC; reflexivity).
  assert (E5 : dict_get_default tbl "high_temp" 999%Q = H)
    by (unfold dict_get_default; rewrite HH; reflexivity).
  assert (Htrue : truthy (PStr eid) = true).
  { simpl. destruct (String.eqb eid "") eqn:E; [apply String.eqb_eq in E; congruence | reflexivity]. }
  unfold process_equipment_alerts, process_equipment_alerts_body.
  unfold extracted_temperature in *.
  cbn [py_get mbind res_bind].
  rewrite E1, E2, Htrue, Hloct. cbn [negb orb determine_equipment_type_py mbind res_bind].
  rewrite E3, Htr, Hv, E4, E5. unfold dict_index. rewrite HC, HH.
  destruct (Qeq_bool v 0) eqn:Ev.
  - apply Qeq_bool_iff in Ev. cbn.
    split; [intros; lra|]. split; [intros; lra|]. reflexivity.
  - cbn [negb].
    destruct (Qltb C v) eqn:ECv.
    + apply Qltb_true in ECv.
      split; [intros _; eexists; split; [reflexivity|]; cbn; repeat split|].
      split; [intros; lra|]. intros; lra.
    + apply Qltb_false in ECv.
      destruct (Qltb H v) eqn:EHv.
      * apply Qltb_true in EHv.
        split; [intros; lra|].
        split; [intros _ _; eexists; split; [reflexivity|]; cbn; repeat split|].
        intros; lra.
      * apply Qltb_false in EHv.
        split; [intros; lra|]. split; [intros; lra|]. reflexivity.
Qed.

(** C7: a metrics row whose category has no [critical_temp] and no
    [high_temp] (the category "unknown", or "geo", has no table at all)
    yields no candidate, whatever its temperature. *)
Theorem process_equipment_alerts_missing_thresholds
    (kv : list (string * pyval)) (eid : string) :
  dict_get kv "equipmentId" = Some (PStr eid) ->
  dict_get (dict_get_default EQUIPMENT_ALERT_THRESHOLDS (determine_equipment_type eid) [])
    "critical_temp" = None ->
  dict_get (dict_get_default EQUIPMENT_ALERT_THRESHOLDS (determine_equipment_type eid) [])
    "high_temp" = None ->
  process_equipment_alerts (PDict kv) = None.
Proof.
  intros Heid HC HH.
  assert (E1 : dict_get_default kv "equipmentId" PNone = PStr eid)
    by (unfold dict_get_default; rewrite Heid; reflexivity).
  set (tbl := dict_get_default EQUIPMENT_ALERT_THRESHOLDS _ []) in *.
  assert (E4 : dict_get_default tbl "critical_temp" 999%Q = 999%Q)
    by (unfold dict_get_default; rewrite HC; reflexivity).
  assert (E5 : dict_get_default tbl "high_temp" 999%Q = 999%Q)
    by (unfold dict_get_default; rewrite HH; reflexivity).
  unfold process_equipment_alerts, process_equipment_alerts_body.
  cbn [py_get mbind res_bind]. rewrite E1.
  destruct (negb (truthy (PStr eid)) || negb (truthy (dict_get_default kv "location_id" PNone)));
    [reflexivity|].
  cbn [determine_equipment_type_py mbind res_bind]. fold tbl.
  rewrite E4, E5.
  destruct (truthy _); [|reflexivity].
  destruct (as_number _) as [v|]; [|reflexivity].
  destruct (Qltb 999 v).
  - unfold dict_index. rewrite HC. reflexivity.
  - reflexivity.
Qed.

Lemma process_equipment_alerts_temperature_bands_witness :
  exists a,
    process_equipment_alerts
      (PDict [("equipmentId", PStr "boiler-3"); ("location_id", PStr "7");
              ("temperature", PInt 205)]) = Some a /\
    al_severity a = "CRITICAL" /\ al_threshold a = 200%Q.
Proof.
  destruct (process_equipment_alerts_temperature_bands
              [("equipmentId", PStr "boiler-3"); ("location_id", PStr "7");
               ("temperature", PInt 205)]
              "boiler-3" (PStr "7")
              [("critical_temp", 200%Q); ("high_temp", 180%Q);
               ("low_efficiency", 70%Q); ("high_pressure", 150%Q)]
              200 180 205
              ltac:(reflexivity) ltac:(discriminate) ltac:(reflexivity)
              ltac:(reflexivity) ltac:(reflexivity) ltac:(reflexivity)
              ltac:(reflexivity) ltac:(vm_compute; reflexivity) ltac:(reflexivity))
    as [Hcrit _].
  destruct (Hcrit ltac:(vm_compute; reflexivity)) as (a & Ha & Hs & _ & _ & Hth).
  exists a. split; [exact Ha|]. split; [exact Hs|exact Hth].
Defined.

Lemma process_equipment_alerts_missing_thresholds_witness :
  process_equipment_alerts
    (PDict [("equipmentId", PStr "GEO-7"); ("location_id", PStr "4");
            ("temperature", PInt 5000)]) = None.
Proof.
  apply (process_equipment_alerts_missing_thresholds _ "GEO-7"); reflexivity.
Defined.

Section DispatchFacts.
Variable py_str : pyval -> string.
Variable env : string -> option string.

Lemma send_alert_notification_suppressed st cfg net t a :
  cooldown_allows st (alert_key py_str a) t = false ->
  send_alert_notification py_str env st cfg net t a = (false, st, []).
Proof.
  intros E. unfold send_alert_notification. rewrite E. reflexivity.
Qed.

Lemma send_alert_notification_store st cfg net t a :
  cooldown_allows st (alert_key py_str a) t = true ->
  snd (fst (send_alert_notification py_str env st cfg net t a)) =
    <[alert_key py_str a := t]> st.
Proof.
  intros E. unfold send_alert_notification. rewrite E. cbn [negb].
  destruct (send_resend_notification _ _ _).
  destruct (if truthy _ then _ else _).
  destruct (if truthy _ then _ else _).
  reflexivity.
Qed.

(** C2: two candidates with the same subject and kind at [t0 < t1], the
    first let through the gate: the first stores [t0] under the key
    before any channel is tried; within the window ([t1 - t0 < 300 s])
    the second returns false, sends nothing and leaves [t0] stored; from
    the window on it is let through and stores [t1]. *)
Theorem send_alert_notification_cooldown (st : gmap string Q)
    (cfg : list (string * pyval)) (net0 net1 : network) (a0 a1 : alert) (t0 t1 : Q) :
  alert_subject a0 = alert_subject a1 -> al_type a0 = al_type a1 ->
  cooldown_allows st (alert_key py_str a0) t0 = true -> (t0 < t1)%Q ->
  let st1 := snd (fst (send_alert_notification py_str env st cfg net0 t0 a0)) in
  let second := send_alert_notification py_str env st1 cfg net1 t1 a1 in
  st1 = <[alert_key py_str a0 := t0]> st /\
  ((t1 - t0 < cooldown_seconds)%Q ->
     fst (fst second) = false /\
     snd (fst second) !! alert_key py_str a1 = Some t0 /\ snd second = []) /\
  ((cooldown_seconds <= t1 - t0)%Q ->
     cooldown_allows st1 (alert_key py_str a1) t1 = true /\
     snd (fst second) = <[alert_key py_str a1 := t1]> st1).
Proof.
  intros Hs Ht Hallow Hlt st1 second.
  assert (Hkey : alert_key py_str a1 = alert_key py_str a0)
    by (unfold alert_key; rewrite Hs, Ht; reflexivity).
  assert (Hst1 : st1 = <[alert_key py_str a0 := t0]> st)
    by (apply send_alert_notification_store; exact Hallow).
  assert (Hgate : cooldown_allows st1 (alert_key py_str a1) t1 =
                  negb (Qltb (t1 - t0) cooldown_seconds)).
  { rewrite Hst1, Hkey. unfold cooldown_allows. rewrite lookup_insert_eq. reflexivity. }
  split; [exact Hst1|]. split.
  - intros Hw. apply Qltb_true in Hw. rewrite Hw in Hgate.
    unfold second. rewrite (send_alert_notification_suppressed _ _ _ _ _ Hgate).
    cbn. rewrite Hst1, Hkey, lookup_insert_eq. repeat split.
  - intros Hw. apply Qltb_false in Hw. rewrite Hw in Hgate. cbn in Hgate.
    split; [exact Hgate|]. apply send_alert_notification_store. exact Hgate.
Qed.

End DispatchFacts.

Lemma send_alert_notification_cooldown_witness :
  let a := mkAlert "CRITICAL" "HIGH_TEMPERATURE" 205 200 (Some (PStr "boiler-3"))
             (Some (PStr "7")) (Some "boiler") None "equipment_monitoring" in
  let net := mkNetwork (fun _ => HResp 500 true) HRaise HRaise in
  let py_str := fun v => match v with PStr s => s | _ => "" end in
  let st1 := snd (fst (send_alert_notification py_str (fun _ => None) ∅ [] net 0 a)) in
  fst (fst (send_alert_notification py_str (fun _ => None) st1 [] net 100 a)) = false.
Proof.
  intros a net py_str st1.
  destruct (send_alert_notification_cooldown py_str (fun _ => None) ∅ [] net net a a 0 100
              ltac:(reflexivity) ltac:(reflexivity) ltac:(reflexivity)
              ltac:(vm_compute; reflexivity)) as (_ & Hin & _).
  exact (proj1 (Hin ltac:(vm_compute; reflexivity))).
Defined.

Lemma posts_to_app ch l1 l2 : posts_to ch (l1 ++ l2) = (posts_to ch l1 + posts_to ch l2)%nat.
Proof. unfold posts_to. rewrite List.filter_app, List.length_app. reflexivity. Qed.

Lemma bms_event_post : bms_event (EPost "bms_api").
Proof. left. reflexivity. Qed.

Lemma bms_event_sleep q : bms_event (ESleep q).
Proof. right. eauto. Qed.

Lemma bms_api_loop_events net attempts :
  Forall bms_event (snd (bms_api_loop net attempts)).
Proof.
  induction attempts as [|i rest IH]; cbn [bms_api_loop]; [constructor|].
  set (backoff := if (i <? retry_attempts - 1)%nat
                  then [ESleep (retry_backoff ^ Z.of_nat i)] else []).
  assert (Hsl : Forall bms_event backoff).
  { unfold backoff. destruct (i <? retry_attempts - 1)%nat.
    - constructor; [apply bms_event_sleep|constructor].
    - constructor. }
  destruct (bms_api_loop net rest) as [ok ev] eqn:Eb. cbn [snd] in IH.
  destruct (net i) as [code body_ok|].
  - destruct (Z.eqb code 200); [destruct body_ok|]; cbn [snd].
    + constructor; [apply bms_event_post|constructor].
    + constructor; [apply bms_event_post|apply Forall_app; split; assumption].
    + constructor; [apply bms_event_post|assumption].
  - cbn [snd]. constructor; [apply bms_event_post|apply Forall_app; split; assumption].
Qed.

Lemma posts_to_bms_events ch l :
  ch <> "bms_api" -> Forall bms_event l -> posts_to ch l = 0%nat.
Proof.
  intros Hch Hl. induction Hl as [|e l He Hl IH]; [reflexivity|].
  unfold posts_to in *. destruct He as [->|[q ->]]; cbn [List.filter]; [|exact IH].
  rewrite (proj2 (String.eqb_neq _ _)); [exact IH|]. intros E; apply Hch; symmetry; exact E.
Qed.

Lemma send_resend_notification_events env cfg net :
  Forall bms_event (snd (send_resend_notification env cfg net)).
Proof.
  unfold send_resend_notification. destruct (negb _); [constructor|apply bms_api_loop_events].
Qed.

Lemma send_slack_notification_events o : snd (send_slack_notification o) = [EPost "slack"].
Proof. reflexivity. Qed.

Lemma send_discord_notification_events o : snd (send_discord_notification o) = [EPost "discord"].
Proof. reflexivity. Qed.

Section DispatchFacts2.
Variable py_str : pyval -> string.
Variable env : string -> option string.

(** C9: for a candidate the cooldown lets through, the dispatch reports
    success iff the BMS API channel succeeded, or a Slack webhook is
    configured and Slack succeeded, or a Discord webhook is configured and
    Discord succeeded; without a recipient the BMS API channel makes no
    request, and Slack and Discord are POSTed to once each exactly when
    their webhook is configured. *)
Theorem send_alert_notification_any_channel (st : gmap string Q)
    (cfg : list (string * pyval)) (net : network) (t : Q) (a : alert) :
  cooldown_allows st (alert_key py_str a) t = true ->
  let recipient_email :=
    py_or (dict_get_default cfg "recipient_email" PNone) (getenv env "DEFAULT_RECIPIENT") in
  let slack_webhook :=
    py_or (dict_get_default cfg "slack_webhook_url" PNone) (getenv env "SLACK_WEBHOOK_URL") in
  let discord_webhook :=
    py_or (dict_get_default cfg "discord_webhook_url" PNone) (getenv env "DISCORD_WEBHOOK_URL") in
  let result := send_alert_notification py_str env st cfg net t a in
  (fst (fst result) = true <->
     fst (send_resend_notification env cfg (net_bms_api net)) = true \/
     (truthy slack_webhook = true /\ fst (send_slack_notification (net_slack net)) = true) \/
     (truthy discord_webhook = true /\
      fst (send_discord_notification (net_discord net)) = true)) /\
  (truthy recipient_email = false ->
     fst (send_resend_notification env cfg (net_bms_api net)) = false /\
     posts_to "bms_api" (snd result) = 0%nat) /\
  posts_to "slack" (snd result) = (if truthy slack_webhook then 1 else 0)%nat /\
  posts_to "discord" (snd result) = (if truthy discord_webhook then 1 else 0)%nat.
Proof.
  intros Hallow. cbv zeta.
  unfold send_alert_notification. cbv zeta. rewrite Hallow. cbn [negb].
  set (rw := truthy (py_or (dict_get_default cfg "recipient_email" PNone)
                           (getenv env "DEFAULT_RECIPIENT"))).
  set (sw := truthy (py_or (dict_get_default cfg "slack_webhook_url" PNone)
                           (getenv env "SLACK_WEBHOOK_URL"))).
  set (dw := truthy (py_or (dict_get_default cfg "discord_webhook_url" PNone)
                           (getenv env "DISCORD_WEBHOOK_URL"))).
  set (hw := truthy (dict_get_default cfg "alerts_db" PNone)).
  assert (Hnorec : rw = false ->
            send_resend_notification env cfg (net_bms_api net) = (false, [])).
  { intros Hr. unfold send_resend_notification. cbv zeta. fold rw. rewrite Hr. reflexivity. }
  assert (Hev := send_resend_notification_events env cfg (net_bms_api net)).
  destruct (send_resend_notification env cfg (net_bms_api net)) as [r1 ev1] eqn:E1.
  cbn [snd] in Hev.
  assert (Hs1 : posts_to "slack" ev1 = 0%nat)
    by (apply posts_to_bms_events; [discriminate|exact Hev]).
  assert (Hd1 : posts_to "discord" ev1 = 0%nat)
    by (apply posts_to_bms_events; [discriminate|exact Hev]).
  assert (Hsl := send_slack_notification_events (net_slack net)).
  destruct (send_slack_notification (net_slack net)) as [rs evs] eqn:Es.
  cbn [snd] in Hsl. subst evs.
  assert (Hdc := send_discord_notification_events (net_discord net)).
  destruct (send_discord_notification (net_discord net)) as [rd evd] eqn:Ed.
  cbn [snd] in Hdc. subst evd.
  assert (Hh : forall ch, posts_to ch (if hw then [EHistory] else []) = 0%nat)
    by (intros ch; destruct hw; reflexivity).
  destruct sw, dw; cbn [fst snd];
    rewrite ?posts_to_app, Hs1, Hd1, !Hh; cbn [Nat.add];
    (split; [destruct r1, rs, rd; cbn [orb]; intuition congruence|]);
    (split; [intros Hr; specialize (Hnorec Hr); injection Hnorec as -> ->;
             split; [reflexivity|rewrite ?posts_to_app, ?Hh; reflexivity]|]);
    split; reflexivity.
Qed.

End DispatchFacts2.

Lemma send_alert_notification_any_channel_witness :
  let a := mkAlert "WARNING" "EQUIPMENT_HEALTH_LOW" 30 40 (Some (PStr "AHU-2"))
             (Some (PStr "7")) None None "predictive_maintenance" in
  let net := mkNetwork (fun _ => HRaise) (HResp 200 true) HRaise in
  let cfg := [("slack_webhook_url", PStr "https://hooks.example/T1")] in
  let py_str := fun v => match v with PStr s => s | _ => "" end in
  fst (fst (send_alert_notification py_str (fun _ => None) ∅ cfg net 0 a)) = true.
Proof.
  intros a net cfg py_str.
  assert (Hc : cooldown_allows (∅ : gmap string Q) (alert_key py_str a) 0 = true)
    by reflexivity.
  destruct (send_alert_notification_any_channel py_str (fun _ => None) ∅ cfg net 0 a Hc)
    as (Hiff & _).
  apply Hiff. right. left. split; reflexivity.
Defined.

(** C8: with a recipient configured, a BMS API that answers HTTP 500 is
    POSTed to three times back to back, with no sleep in between; only
    when the request raises does the loop sleep [2.0 ** attempt] seconds
    (1 s, then 2 s).  Slack and Discord are POSTed to once. *)
Lemma send_resend_notification_http_error_no_backoff :
  let cfg := [("recipient_email", PStr "ops@example.com")] in
  send_resend_notification (fun _ => None) cfg (fun _ => HResp 500 true)
    = (false, [EPost "bms_api"; EPost "bms_api"; EPost "bms_api"]) /\
  send_resend_notification (fun _ => None) cfg (fun _ => HRaise)
    = (false, [EPost "bms_api"; ESleep 1; EPost "bms_api"; ESleep 2; EPost "bms_api"]) /\
  send_slack_notification HRaise = (false, [EPost "slack"]) /\
  send_discord_notification (HResp 500 true) = (false, [EPost "discord"]).
Proof. vm_compute. repeat split. Qed.

Section EngineFacts.
Variable py_str : pyval -> string.
Variable env : string -> option string.
Variable clock : nat -> Q.
Variable nets : nat -> network.

Lemma handle_rows_alerts process cfg rows : forall counts s,
  fst (fst (handle_rows py_str env clock nets process cfg counts s rows))
  = (fst counts + count_candidates process rows)%nat.
Proof.
  unfold count_candidates.
  induction rows as [|row rows IH]; intros counts s; cbn [handle_rows List.filter].
  - cbn. lia.
  - destruct (process row) as [a|].
    + destruct (dispatch py_str env clock nets cfg s a) as [ok s'].
      rewrite IH. cbn [fst length]. lia.
    + apply IH.
Qed.

Lemma process_batches_alerts cfg bs : forall counts s,
  exists s' n,
    process_batches py_str env clock nets cfg counts s
      (map (fun b => PDict [("table_name", PStr (fst b)); ("rows", PList (snd b))]) bs)
    = (s', Ok (fst counts + candidates_in bs, n))%nat.
Proof.
  induction bs as [|[name rows] bs IH]; intros counts s.
  - exists s, (snd counts). destruct counts. cbn. f_equal. f_equal. f_equal. lia.
  - cbn [map process_batches py_get dict_get_default dict_get fst snd].
    change (dict_get_default [("table_name", PStr name); ("rows", PList rows)]
              "table_name" (PStr "")) with (PStr name).
    change (dict_get_default [("table_name", PStr name); ("rows", PList rows)]
              "rows" (PList [])) with (PList rows).
    unfold candidates_in in *. cbn [fold_right fst snd].
    destruct (handler_for (PStr name)) as [process|].
    + cbn [py_iter].
      destruct (handle_rows py_str env clock nets process cfg counts s rows) as [counts' s'] eqn:Eh.
      assert (Hc := handle_rows_alerts process cfg rows counts s).
      rewrite Eh in Hc. cbn [fst] in Hc.
      destruct (IH counts' s') as (s'' & n & ->).
      exists s'', n. rewrite Hc. unfold count_candidates. f_equal. f_equal. f_equal. lia.
    + apply IH.
Qed.

(** C10: [process_writes] returns on every input.  On table batches of
    the host's shape it completes, and its count of alerts generated is
    the number of rows whose evaluator returns a candidate: a row whose
    evaluation raises yields no candidate and the next rows are still
    evaluated.  A [table_batches] that is not iterable raises inside the
    entry point's [try] and is logged. *)
Theorem process_writes_never_raises (s : engine_state) (args : pyval) :
  (forall bs, exists n,
     snd (process_writes py_str env clock nets s (batches_of bs) args)
     = Completed (candidates_in bs) n) /\
  (forall z, process_writes py_str env clock nets s (PInt z) args = (s, LoggedError TypeError)).
Proof.
  split.
  - intros bs. unfold process_writes, batches_of. cbn [py_iter].
    destruct (process_batches_alerts (parse_alert_arguments args) bs (0, 0)%nat s)
      as (s' & n & ->).
    exists n. reflexivity.
  - intros z. reflexivity.
Qed.

End EngineFacts.

(** C4: for an [equipment_health] row with a truthy [equipment_id] and a
    numeric [health_score] [h]: [h < 20] gives a CRITICAL candidate of
    kind EQUIPMENT_HEALTH_CRITICAL with value [h], threshold 20 and source
    predictive_maintenance; [20 <= h < 40] gives a WARNING candidate of
    kind EQUIPMENT_HEALTH_LOW with threshold 40 and the same source;
    [h >= 40] gives none.  A score of 15 has status "critical". *)
Theorem process_health_alerts_bands (kv : list (string * pyval)) (eid hs : pyval) (h : Q) :
  dict_get kv "equipment_id" = Some eid -> truthy eid = true ->
  dict_get kv "health_score" = Some hs -> as_number hs = Some h ->
  ((h < 20)%Q -> exists a, process_health_alerts (PDict kv) = Some a /\
     al_severity a = "CRITICAL" /\ al_type a = "EQUIPMENT_HEALTH_CRITICAL" /\
     al_value a = h /\ al_threshold a = 20%Q /\ al_source a = "predictive_maintenance") /\
  ((20 <= h)%Q -> (h < 40)%Q -> exists a, process_health_alerts (PDict kv) = Some a /\
     al_severity a = "WARNING" /\ al_type a = "EQUIPMENT_HEALTH_LOW" /\
     al_value a = h /\ al_threshold a = 40%Q /\ al_source a = "predictive_maintenance") /\
  ((40 <= h)%Q -> process_health_alerts (PDict kv) = None) /\
  PredictiveMaintenance.get_health_status 15 = "critical".
Proof.
  intros He Het Hh Hn.
  assert (E : process_health_alerts (PDict kv) =
              if Qltb h 20 then
                Some (mkAlert "CRITICAL" "EQUIPMENT_HEALTH_CRITICAL" h 20 (Some eid)
                        (Some (dict_get_default kv "location_id" PNone)) None
                        (Some (dict_get_default kv "health_status" (PStr "unknown")))
                        "predictive_maintenance")
              else if Qltb h 40 then
                Some (mkAlert "WARNING" "EQUIPMENT_HEALTH_LOW" h 40 (Some eid)
                        (Some (dict_get_default kv "location_id" PNone)) None
                        (Some (dict_get_default kv "health_status" (PStr "unknown")))
                        "predictive_maintenance")
              else None).
  { unfold process_health_alerts, process_health_alerts_body.
    cbn [py_get mbind res_bind].
    assert (E1 : dict_get_default kv "equipment_id" PNone = eid)
      by (unfold dict_get_default; rewrite He; reflexivity).
    assert (E2 : dict_get_default kv "health_score" (PInt 100) = hs)
      by (unfold dict_get_default; rewrite Hh; reflexivity).
    rewrite E1, E2, Het. cbn [negb]. rewrite Hn.
    destruct (Qltb h 20); [reflexivity|]. destruct (Qltb h 40); reflexivity. }
  rewrite E. split; [|split; [|split]].
  - intros H. apply Qltb_true in H. rewrite H. eexists. split; [reflexivity|].
    repeat split.
  - intros H1 H2. apply Qltb_false in H1. apply Qltb_true in H2. rewrite H1, H2.
    eexists. split; [reflexivity|]. repeat split.
  - intros H. rewrite (proj2 (Qltb_false h 20)) by lra.
    rewrite (proj2 (Qltb_false h 40)) by lra. reflexivity.
  - vm_compute. reflexivity.
Qed.

Lemma process_health_alerts_bands_witness :
  exists a,
    process_health_alerts
      (PDict [("equipment_id", PStr "boiler-1"); ("location_id", PStr "7");
              ("health_score", PInt 15)]) = Some a /\
    al_type a = "EQUIPMENT_HEALTH_CRITICAL".
Proof.
  destruct (process_health_alerts_bands
              [("equipment_id", PStr "boiler-1"); ("location_id", PStr "7");
               ("health_score", PInt 15)]
              (PStr "boiler-1") (PInt 15) 15
              ltac:(reflexivity) ltac:(reflexivity) ltac:(reflexivity) ltac:(reflexivity))
    as (Hcrit & _).
  destruct (Hcrit ltac:(vm_compute; reflexivity)) as (a & Ha & _ & Ht & _).
  exists a. split; assumption.
Defined.

End AlertEngineFacts.

(* --------------------------------------------------------------------- *)
(* The predictive maintenance plugin                                     *)
(* --------------------------------------------------------------------- *)
Module PredictiveMaintenanceFacts.

Import PredictiveMaintenance PyFacts.
Local Open Scope Q_scope.

Lemma threshold_values :
  threshold "excellent" = 90 /\ threshold "good" = 75 /\ threshold "fair" = 60 /\
  threshold "poor" = 40.
Proof. repeat split; reflexivity. Qed.

Lemma get_health_status_spec (s : Q) :
  (get_health_status s = "excellent" <-> 90 <= s) /\
  (get_health_status s = "good" <-> 75 <= s /\ s < 90) /\
  (get_health_status s = "fair" <-> 60 <= s /\ s < 75) /\
  (get_health_status s = "poor" <-> 40 <= s /\ s < 60) /\
  (get_health_status s = "critical" <-> s < 40).
Proof.
  destruct threshold_values as (T1 & T2 & T3 & T4).
  unfold get_health_status. rewrite T1, T2, T3, T4.
  Qleb_cases; repeat split; intros;
    repeat match goal with |- _ /\ _ => split end;
    first [discriminate | reflexivity | lra | exfalso; lra].
Qed.

Lemma temperature_band_values (a m : Q) :
  temperature_band a m = 100 \/ temperature_band a m = 85 \/
  temperature_band a m = 70 \/ temperature_band a m = 30.
Proof. unfold temperature_band. Qleb_cases; tauto. Qed.

Lemma temperature_band_antitone (a1 a2 m : Q) :
  a1 <= a2 -> temperature_band a2 m <= temperature_band a1 m.
Proof.
  intros H. unfold temperature_band. Qleb_cases; first [lra | exfalso; lra].
Qed.

Lemma determine_equipment_type_nonempty (s : string) :
  String.eqb (determine_equipment_type s) "" = false.
Proof.
  unfold determine_equipment_type.
  repeat match goal with |- context [if ?c then _ else _] => destruct c end; reflexivity.
Qed.

Section HealthFacts.
Variable parse_float : string -> option Q.

Lemma calculate_temperature_health_values metrics cm mx th :
  calculate_temperature_health parse_float metrics cm mx = Ok th ->
  th = 100 \/ th = 85 \/ th = 70 \/ th = 30 \/ th = 75.
Proof.
  unfold calculate_temperature_health.
  destruct (collect_temps parse_float metrics cm) as [temps|e]; cbn [mbind res_bind];
    [|discriminate].
  destruct temps as [|t temps]; intros E; injection E as <-; [tauto|].
  match goal with |- context [temperature_band ?a ?m] =>
    destruct (temperature_band_values a m) as [H|[H|[H|H]]]; rewrite H; tauto
  end.
Qed.

Lemma analyze_equipment_health_body_ok eid kv r :
  analyze_equipment_health_body parse_float eid kv = Ok r ->
  exists et th,
    (th = 100 \/ th = 85 \/ th = 70 \/ th = 30 \/ th = 75) /\
    r = mkAnalysis (round2 (weighted_health th 80 75 80))
          (get_health_status (weighted_health th 80 75 80))
          (Some (round2 th)) (Some (round2 80)) (Some (round2 75)) (Some (round2 80))
          (Some et).
Proof.
  unfold analyze_equipment_health_body.
  destruct eid as [| | | |s| |]; cbn [determine_equipment_type_py mbind res_bind];
    try discriminate.
  rewrite determine_equipment_type_nonempty.
  destruct (calculate_temperature_health parse_float kv _ _) as [th|e] eqn:Ec;
    cbn [mbind res_bind]; [|discriminate].
  intros E. injection E as <-.
  exists (determine_equipment_type s), th. split; [|reflexivity].
  eapply calculate_temperature_health_values; exact Ec.
Qed.


(** C3: on the non-exception path of [analyze_equipment_health], the
    returned score equals [0.25 * temperature + 0.25 * efficiency +
    0.30 * trend + 0.20 * operational] of the returned sub-scores, every
    sub-score and the score lie in [0, 100], and the status is
    "excellent" iff score >= 90, "good" iff 75 <= score < 90, "fair" iff
    60 <= score < 75, "poor" iff 40 <= score < 60 and "critical" iff
    score < 40. *)
Theorem analyze_equipment_health_score (eid : pyval) (kv : list (string * pyval))
    (r : health_analysis) :
  analyze_equipment_health_body parse_float eid kv = Ok r ->
  exists th eh trh oh,
    temperature_health r = Some th /\ efficiency_health r = Some eh /\
    trend_health r = Some trh /\ operational_health r = Some oh /\
    health_score r == weighted_health th eh trh oh /\
    (0 <= th <= 100 /\ 0 <= eh <= 100 /\ 0 <= trh <= 100 /\ 0 <= oh <= 100) /\
    0 <= health_score r <= 100 /\
    (status r = "excellent" <-> 90 <= health_score r) /\
    (status r = "good" <-> 75 <= health_score r /\ health_score r < 90) /\
    (status r = "fair" <-> 60 <= health_score r /\ health_score r < 75) /\
    (status r = "poor" <-> 40 <= health_score r /\ health_score r < 60) /\
    (status r = "critical" <-> health_score r < 40).
Proof.
  intros E. destruct (analyze_equipment_health_body_ok _ _ _ E) as (et & th & Hth & ->).
  exists (round2 th), (round2 80), (round2 75), (round2 80).
  cbn [health_score status temperature_health efficiency_health trend_health
       operational_health].
  destruct (get_health_status_spec (weighted_health th 80 75 80))
    as (S1 & S2 & S3 & S4 & S5).
  assert (Hr : round2 (weighted_health th 80 75 80) == weighted_health th 80 75 80 /\
               round2 th == th /\ round2 80 == 80 /\ round2 75 == 75 /\ 30 <= th <= 100).
  { destruct Hth as [->|[->|[->|[->| ->]]]];
      repeat split; first [vm_compute; reflexivity | lra]. }
  destruct Hr as (R1 & R2 & R3 & R4 & R5).
  rewrite S1, S2, S3, S4, S5.
  unfold weighted_health in *.
  repeat split; intros; first [lra | reflexivity].
Qed.


Lemma analyze_equipment_health_at_least_50 eid kv :
  50 <= health_score (analyze_equipment_health parse_float eid kv) /\
  status (analyze_equipment_health parse_float eid kv) <> "excellent" /\
  status (analyze_equipment_health parse_float eid kv) <> "poor" /\
  status (analyze_equipment_health parse_float eid kv) <> "critical".
Proof.
  unfold analyze_equipment_health.
  destruct (analyze_equipment_health_body parse_float eid kv) as [r|e] eqn:E.
  - destruct (analyze_equipment_health_body_ok _ _ _ E) as (et & th & Hth & ->).
    cbn [health_score status].
    destruct Hth as [->|[->|[->|[->| ->]]]]; repeat split;
      first [vm_compute; discriminate | vm_compute; intros; discriminate].
  - cbn [health_score status]. repeat split; first [lra | discriminate].
Qed.

Lemma pm_handle_rows_no_alerts rows : forall s,
  alerts_generated s = 0%nat -> maintenance_alerts s = [] ->
  alerts_generated (fst (pm_handle_rows parse_float s rows)) = 0%nat /\
  maintenance_alerts (fst (pm_handle_rows parse_float s rows)) = [].
Proof.
  induction rows as [|row rows IH]; intros s Ha Hm; cbn [pm_handle_rows].
  - cbn [fst]. split; assumption.
  - destruct row as [| | | | | |kv]; cbn [fst]; try (split; assumption).
    destruct (truthy _ && truthy _); [|apply IH; assumption].
    destruct (analyze_equipment_health_at_least_50 (dict_get_default kv "equipmentId" PNone) kv)
      as (H50 & _).
    assert (Hg : Qltb (health_score (analyze_equipment_health parse_float
                   (dict_get_default kv "equipmentId" PNone) kv)) (threshold "poor") = false).
    { apply Qltb_false. destruct threshold_values as (_ & _ & _ & ->). lra. }
    rewrite Hg. apply IH; assumption.
Qed.

Lemma pm_process_batches_no_alerts batches : forall s,
  alerts_generated s = 0%nat -> maintenance_alerts s = [] ->
  alerts_generated (fst (pm_process_batches parse_float s batches)) = 0%nat /\
  maintenance_alerts (fst (pm_process_batches parse_float s batches)) = [].
Proof.
  induction batches as [|b batches IH]; intros s Ha Hm; cbn [pm_process_batches].
  - split; assumption.
  - destruct (py_get b "table_name" _) as [tn|e]; [|split; assumption].
    destruct (py_get b "rows" _) as [rows|e]; [|split; assumption].
    destruct (negb _); [apply IH; assumption|].
    destruct (py_iter rows) as [rows_l|e]; [|split; assumption].
    destruct (pm_handle_rows_no_alerts rows_l s Ha Hm) as [Ha' Hm'].
    destruct (pm_handle_rows parse_float s rows_l) as [s' [u|e]]; cbn [fst] in Ha', Hm'.
    + apply IH; assumption.
    + split; assumption.
Qed.

(** C5: with the constant efficiency, trend and operational sub-scores
    (80, 75, 80), every score of the non-exception path is one of 66,
    76, 77.25, 79.75 and 83.5, and 50 on the exception path; so the score
    is at least 50, the status is never "excellent", "poor" or
    "critical", and [process_writes] never reaches
    [generate_maintenance_alert] nor counts an alert. *)
Theorem health_score_constant_subscores (eid : pyval) (kv : list (string * pyval))
    (table_batches : pyval) :
  match analyze_equipment_health_body parse_float eid kv with
  | Ok r => health_score r == 66 \/ health_score r == 76 \/ health_score r == 77.25 \/
            health_score r == 79.75 \/ health_score r == 83.5
  | Err _ => health_score (analyze_equipment_health parse_float eid kv) == 50
  end /\
  50 <= health_score (analyze_equipment_health parse_float eid kv) /\
  status (analyze_equipment_health parse_float eid kv) <> "excellent" /\
  status (analyze_equipment_health parse_float eid kv) <> "poor" /\
  status (analyze_equipment_health parse_float eid kv) <> "critical" /\
  alerts_generated (process_writes parse_float table_batches) = 0%nat /\
  maintenance_alerts (process_writes parse_float table_batches) = [].
Proof.
  destruct (analyze_equipment_health_at_least_50 eid kv) as (H50 & Hx & Hp & Hc).
  split; [|split; [exact H50|split; [exact Hx|split; [exact Hp|split; [exact Hc|]]]]].
  - destruct (analyze_equipment_health_body parse_float eid kv) as [r|e] eqn:E.
    + destruct (analyze_equipment_health_body_ok _ _ _ E) as (et & th & Hth & ->).
      cbn [health_score].
      destruct Hth as [->|[->|[->|[->| ->]]]];
        [right; right; right; right|right; right; right; left|right; left|left|right; right; left];
        vm_compute; reflexivity.
    + unfold analyze_equipment_health. rewrite E. reflexivity.
  - unfold process_writes. destruct (py_iter table_batches) as [batches|e];
      [|split; reflexivity].
    apply pm_process_batches_no_alerts; reflexivity.
Qed.


Lemma collect_temps_absent metrics cm :
  Forall (fun m => dict_get metrics m = None) cm ->
  collect_temps parse_float metrics cm = Ok [].
Proof.
  induction 1 as [|m cm Hm _ IH]; cbn [collect_temps]; [reflexivity|].
  rewrite Hm. exact IH.
Qed.

(** C6: for a positive maximum operating temperature, the temperature
    sub-score is 75 when no configured critical metric is in the reading,
    and otherwise the step function of the average of the readings:
    100 up to 0.8 * max, 85 up to 0.9 * max, 70 up to max, 30 above;
    with the other sub-scores fixed, the weighted health score does not
    increase as the average rises. *)
Theorem calculate_temperature_health_step (metrics : list (string * pyval))
    (critical_metrics : list string) (max_temp : Q) (temps : list Q) :
  0 < max_temp ->
  collect_temps parse_float metrics critical_metrics = Ok temps ->
  let avg_temp := fold_left Qplus temps 0 / inject_Z (Z.of_nat (length temps)) in
  (Forall (fun m => dict_get metrics m = None) critical_metrics ->
     calculate_temperature_health parse_float metrics critical_metrics max_temp = Ok 75) /\
  (temps <> [] ->
     calculate_temperature_health parse_float metrics critical_metrics max_temp
       = Ok (temperature_band avg_temp max_temp)) /\
  (avg_temp <= (8 # 10) * max_temp -> temperature_band avg_temp max_temp = 100) /\
  ((8 # 10) * max_temp < avg_temp -> avg_temp <= (9 # 10) * max_temp ->
     temperature_band avg_temp max_temp = 85) /\
  ((9 # 10) * max_temp < avg_temp -> avg_temp <= max_temp ->
     temperature_band avg_temp max_temp = 70) /\
  (max_temp < avg_temp -> temperature_band avg_temp max_temp = 30) /\
  (forall a1 a2 eh trh oh, a1 <= a2 ->
     weighted_health (temperature_band a2 max_temp) eh trh oh
     <= weighted_health (temperature_band a1 max_temp) eh trh oh).
Proof.
  intros Hmax Ht avg_temp.
  assert (Havg : avg_temp = fold_left Qplus temps 0 / inject_Z (Z.of_nat (length temps)))
    by reflexivity.
  clearbody avg_temp.
  split; [|split; [|split; [|split; [|split; [|split]]]]].
  - intros Hn. unfold calculate_temperature_health.
    rewrite (collect_temps_absent _ _ Hn). reflexivity.
  - intros Hne. unfold calculate_temperature_health. rewrite Ht. cbn [mbind res_bind].
    rewrite Havg. destruct temps as [|t temps]; [congruence|reflexivity].
  - intros H. unfold temperature_band. Qleb_cases; first [reflexivity | exfalso; lra].
  - intros H1 H2. unfold temperature_band. Qleb_cases; first [reflexivity | exfalso; lra].
  - intros H1 H2. unfold temperature_band. Qleb_cases; first [reflexivity | exfalso; lra].
  - intros H. unfold temperature_band. Qleb_cases; first [reflexivity | exfalso; lra].
  - intros a1 a2 eh trh oh Ha. unfold weighted_health.
    assert (Hb := temperature_band_antitone a1 a2 max_temp Ha). lra.
Qed.

End HealthFacts.

(** Every maximum operating temperature of [EQUIPMENT_PARAMETERS], and
    the default 100, is positive. *)
Lemma max_operating_temp_pos :
  Forall (fun p => 0 < max_operating_temp (snd p)) EQUIPMENT_PARAMETERS.
Proof. repeat constructor. Qed.

Lemma analyze_equipment_health_score_witness :
  analyze_equipment_health_body (fun _ => None) (PStr "boiler-1")
    [("equipmentId", PStr "boiler-1"); ("location_id", PStr "7");
     ("Water_Temp", PInt 170)]
  = Ok (mkAnalysis (round2 (weighted_health 85 80 75 80)) "good"
          (Some (round2 85)) (Some (round2 80)) (Some (round2 75)) (Some (round2 80))
          (Some "boiler")) /\
  75 <= round2 (weighted_health 85 80 75 80).
Proof.
  assert (Hb : analyze_equipment_health_body (fun _ => None) (PStr "boiler-1")
                 [("equipmentId", PStr "boiler-1"); ("location_id", PStr "7");
                  ("Water_Temp", PInt 170)]
               = Ok (mkAnalysis (round2 (weighted_health 85 80 75 80)) "good"
                       (Some (round2 85)) (Some (round2 80)) (Some (round2 75))
                       (Some (round2 80)) (Some "boiler")))
    by (vm_compute; reflexivity).
  split; [exact Hb|].
  destruct (analyze_equipment_health_score _ _ _ _ Hb)
    as (th & eh & trh & oh & _ & _ & _ & _ & _ & _ & _ & _ & Hgood & _).
  exact (proj1 (proj1 Hgood eq_refl)).
Defined.

Lemma calculate_temperature_health_step_witness :
  calculate_temperature_health (fun _ => None) [("Water_Temp", PInt 170)]
    ["Water_Temp"; "waterTemp"; "temperature"; "pressure"] 200 = Ok 85.
Proof.
  destruct (calculate_temperature_health_step (fun _ => None) [("Water_Temp", PInt 170)]
              ["Water_Temp"; "waterTemp"; "temperature"; "pressure"] 200 [170]
              ltac:(vm_compute; reflexivity) ltac:(reflexivity))
    as (_ & Hband & _ & H85 & _).
  rewrite (Hband ltac:(discriminate)).
  rewrite H85; [reflexivity|vm_compute; reflexivity|vm_compute; discriminate].
Defined.

End PredictiveMaintenanceFacts.

(* --------------------------------------------------------------------- *)
(* The alert engine: energy rows, arguments, retries, counters           *)
(* --------------------------------------------------------------------- *)
Module AlertEngineExtraFacts.

Import AlertEngine PyFacts AlertEngineFacts.

(** X1: for an [energy_consumption] row with a truthy [location_id] and
    numeric [total_power_kw] [p], [hourly_cost] and [average_efficiency]
    [e] (present or defaulted): [p > 500] gives a WARNING candidate of kind
    HIGH_ENERGY_CONSUMPTION with value [p] and threshold 500, whatever the
    efficiency; otherwise [e < 70] gives a WARNING candidate of kind
    LOW_ENERGY_EFFICIENCY with value [e] and threshold 70; otherwise none. *)
Theorem process_energy_alerts_bands (kv : list (string * pyval)) (p c e : Q) :
  truthy (dict_get_default kv "location_id" PNone) = true ->
  as_number (dict_get_default kv "total_power_kw" (PInt 0)) = Some p ->
  as_number (dict_get_default kv "hourly_cost" (PInt 0)) = Some c ->
  as_number (dict_get_default kv "average_efficiency" (PInt 100)) = Some e ->
  process_energy_alerts (PDict kv) =
    if Qltb 500 p then
      Some (mkAlert "WARNING" "HIGH_ENERGY_CONSUMPTION" p 500 None
              (Some (dict_get_default kv "location_id" PNone)) None None "energy_optimization")
    else if Qltb e 70 then
      Some (mkAlert "WARNING" "LOW_ENERGY_EFFICIENCY" e 70 None
              (Some (dict_get_default kv "location_id" PNone)) None None "energy_optimization")
    else None.
Proof.
  intros Hl Hp Hc He.
  unfold process_energy_alerts, process_energy_alerts_body. cbn [py_get mbind res_bind].
  rewrite Hl, Hp. cbn [negb].
  destruct (Qltb 500 p).
  - unfold format_f. rewrite Hp, Hc. reflexivity.
  - cbn [mbind res_bind]. rewrite He. destruct (Qltb e 70); [|reflexivity].
    unfold format_f. rewrite He. reflexivity.
Qed.

(** X2: when [total_power_kw] exceeds 500 but [hourly_cost] is not a
    number (a string, null, a list), formatting the message raises and
    the row yields no candidate at all: neither the high-consumption
    alert nor the low-efficiency check. *)
Theorem process_energy_alerts_unformattable_cost (kv : list (string * pyval)) (p : Q) :
  truthy (dict_get_default kv "location_id" PNone) = true ->
  as_number (dict_get_default kv "total_power_kw" (PInt 0)) = Some p ->
  (500 < p)%Q ->
  as_number (dict_get_default kv "hourly_cost" (PInt 0)) = None ->
  process_energy_alerts (PDict kv) = None.
Proof.
  intros Hl Hp Hgt Hc.
  unfold process_energy_alerts, process_energy_alerts_body. cbn [py_get mbind res_bind].
  rewrite Hl, Hp. cbn [negb].
  rewrite (proj2 (Qltb_true _ _) Hgt).
  unfold format_f. rewrite ?Hp. cbn [mbind res_bind]. rewrite Hc.
  destruct (dict_get_default kv "hourly_cost" (PInt 0)); reflexivity.
Qed.

Lemma split_on_cons_shape sep s : exists w ws, split_on sep s = w :: ws.
Proof.
  induction s as [|c s IH]; cbn [split_on]; [eauto|].
  destruct IH as (w & ws & ->). destruct (Ascii.eqb c sep); eauto.
Qed.

Lemma split_on_no_sep sep s :
  ~ In sep (list_ascii_of_string s) -> split_on sep s = [s].
Proof.
  induction s as [|c s IH]; cbn; [reflexivity|].
  intros Hn. rewrite IH by tauto.
  destruct (Ascii.eqb_spec c sep); [subst; tauto|reflexivity].
Qed.

Lemma split_on_app sep s t :
  ~ In sep (list_ascii_of_string s) ->
  split_on sep (s ++ String sep t) = s :: split_on sep t.
Proof.
  induction s as [|c s IH]; intros Hn.
  - destruct (split_on_cons_shape sep t) as (w & ws & E).
    simpl. rewrite E, Ascii.eqb_refl. reflexivity.
  - simpl. cbn in Hn. rewrite IH by tauto.
    destruct (Ascii.eqb_spec c sep); [subst; tauto|reflexivity].
Qed.

Lemma split_on_concat sep parts :
  parts <> [] -> Forall (fun s => ~ In sep (list_ascii_of_string s)) parts ->
  split_on sep (String.concat (String sep EmptyString) parts) = parts.
Proof.
  induction parts as [|p parts IH]; intros Hne Hall; [congruence|].
  inversion Hall as [|? ? Hp Hrest]; subst.
  destruct parts as [|q parts].
  - cbn [String.concat]. apply split_on_no_sep, Hp.
  - change (String.concat (String sep EmptyString) (p :: q :: parts))
      with (p ++ String sep EmptyString ++ String.concat (String sep EmptyString) (q :: parts)).
    change (String sep "" ++ ?x) with (String sep x). rewrite split_on_app by exact Hp.
    rewrite IH; [reflexivity|discriminate|exact Hrest].
Qed.

Lemma split_once_app sep k v :
  ~ In sep (list_ascii_of_string k) -> split_once sep (k ++ String sep v) = Some (k, v).
Proof.
  induction k as [|c k IH]; intros Hn; simpl.
  - rewrite Ascii.eqb_refl. reflexivity.
  - cbn in Hn. rewrite IH by tauto.
    destruct (Ascii.eqb_spec c sep); [subst; tauto|reflexivity].
Qed.

Lemma dict_set_new {V} (kv : list (string * V)) k v :
  ~ In k (map fst kv) -> dict_set kv k v = (kv ++ [(k, v)])%list.
Proof.
  induction kv as [|[k' v'] kv IH]; intros Hn; cbn [dict_set]; [reflexivity|].
  cbn in Hn. destruct (String.eqb_spec k k'); [subst; tauto|].
  rewrite IH by tauto. reflexivity.
Qed.

Lemma list_ascii_of_string_append a b :
  list_ascii_of_string (a ++ b) = (list_ascii_of_string a ++ list_ascii_of_string b)%list.
Proof. induction a as [|c a IH]; simpl; [reflexivity|]. rewrite IH. reflexivity. Qed.

Lemma concat_nonempty sep x xs : x <> "" -> String.concat sep (x :: xs) <> "".
Proof.
  destruct xs as [|y ys]; cbn [String.concat]; [tauto|].
  destruct x; [congruence|discriminate].
Qed.

(** X3: [parse_alert_arguments] inverts the "k1=v1,k2=v2" encoding: for
    distinct keys without ',' or '=', values without ',' (they may hold
    '='), and neither with surrounding whitespace, parsing the joined
    string gives back the pairs in order, each value a string. *)
Theorem parse_alert_arguments_roundtrip (l : list (string * string)) :
  Forall (fun '(k, v) =>
            ~ In ","%char (list_ascii_of_string k) /\ ~ In "="%char (list_ascii_of_string k) /\
            ~ In ","%char (list_ascii_of_string v) /\ strip k = k /\ strip v = v) l ->
  NoDup (map fst l) ->
  parse_alert_arguments (PStr (String.concat "," (map (fun '(k, v) => k ++ "=" ++ v) l)))
  = map (fun '(k, v) => (k, PStr v)) l.
Proof.
  intros Hall Hnd. destruct l as [|[k0 v0] l0] eqn:El; [reflexivity|].
  rewrite <- El in *.
  unfold parse_alert_arguments. cbn [truthy].
  assert (Hne : String.concat "," (map (fun '(k, v) => k ++ "=" ++ v) l) <> "").
  { rewrite El. cbn [map]. apply concat_nonempty. destruct k0; discriminate. }
  apply String.eqb_neq in Hne. rewrite Hne. cbn [negb].
  rewrite split_on_concat.
  2: { rewrite El. discriminate. }
  2: { clear -Hall. induction Hall as [|[k v] l (H1 & H2 & H3 & H4 & H5) Hl IH]; constructor;
       [|exact IH].
       rewrite list_ascii_of_string_append. cbn [list_ascii_of_string].
       rewrite in_app_iff. cbn [In]. intros [H|[H|H]]; [tauto|discriminate|tauto]. }
  clear El Hne k0 v0 l0.
  change (map (fun '(k, v) => (k, PStr v)) l) with ([] ++ map (fun '(k, v) => (k, PStr v)) l)%list.
  assert (Hacc : forall k, In k (map fst l) -> ~ In k (map fst (@nil (string * pyval))))
    by (intros; cbn; tauto).
  revert Hacc. generalize (@nil (string * pyval)) as acc. revert Hnd.
  induction Hall as [|[k v] l (H1 & H2 & H3 & H4 & H5) Hl IH]; intros Hnd acc Hacc;
    cbn [map fold_left].
  - rewrite app_nil_r. reflexivity.
  - change (k ++ "=" ++ v) with (k ++ String "=" v).
    rewrite split_once_app by exact H2. cbv beta iota.
    rewrite H4, H5. inversion Hnd as [|? ? Hk Hnd']; subst.
    rewrite dict_set_new by (apply Hacc; left; reflexivity).
    rewrite IH; [|exact Hnd'|].
    + rewrite <- app_assoc. reflexivity.
    + intros k' Hk'. rewrite map_app, in_app_iff. cbn [map In].
      intros [Hin|[Heq|[]]].
      * exact (Hacc k' (or_intror Hk') Hin).
      * subst k'. apply Hk, list_elem_of_In. exact Hk'.
Qed.

Lemma ascii_lower_idem c : ascii_lower (ascii_lower c) = ascii_lower c.
Proof. destruct c as [[] [] [] [] [] [] [] []]; reflexivity. Qed.

Lemma lower_idem s : lower (lower s) = lower s.
Proof.
  induction s as [|c s IH]; cbn [lower]; [reflexivity|].
  rewrite ascii_lower_idem, IH. reflexivity.
Qed.

(** X4: the alert engine and the predictive-maintenance plugin classify
    every equipment id the same way, and the classification ignores the
    case of the id's ASCII letters. *)
Theorem determine_equipment_type_agree_case_insensitive (s : string) :
  AlertEngine.determine_equipment_type s = PredictiveMaintenance.determine_equipment_type s /\
  AlertEngine.determine_equipment_type (lower s) = AlertEngine.determine_equipment_type s.
Proof.
  split; [reflexivity|].
  unfold AlertEngine.determine_equipment_type. rewrite lower_idem. reflexivity.
Qed.

Lemma bms_api_loop_result net attempts :
  fst (bms_api_loop net attempts) = true <->
  exists i, In i attempts /\ net i = HResp 200 true.
Proof.
  induction attempts as [|i rest IH]; cbn [bms_api_loop].
  - cbn. split; [discriminate|]. intros (i & [] & _).
  - destruct (bms_api_loop net rest) as [ok ev] eqn:Eb. cbn [fst] in IH.
    destruct (net i) as [code body_ok|] eqn:En.
    + destruct (Z.eqb_spec code 200) as [->|Hc]; [destruct body_ok|].
      * cbn [fst]. split; [|reflexivity]. intros _. exists i. split; [left; reflexivity|exact En].
      * cbn [fst]. rewrite IH. split.
        -- intros (j & Hj & Ej). exists j. split; [right; exact Hj|exact Ej].
        -- intros (j & [<-|Hj] & Ej); [congruence|]. exists j. split; assumption.
      * cbn [fst]. rewrite IH. split.
        -- intros (j & Hj & Ej). exists j. split; [right; exact Hj|exact Ej].
        -- intros (j & [<-|Hj] & Ej); [congruence|]. exists j. split; assumption.
    + cbn [fst]. rewrite IH. split.
      * intros (j & Hj & Ej). exists j. split; [right; exact Hj|exact Ej].
      * intros (j & [<-|Hj] & Ej); [congruence|]. exists j. split; assumption.
Qed.

Lemma bms_api_loop_posts net attempts :
  (posts_to "bms_api" (snd (bms_api_loop net attempts)) <= length attempts)%nat.
Proof.
  induction attempts as [|i rest IH]; cbn [bms_api_loop]; [cbn; lia|].
  set (backoff := if (i <? retry_attempts - 1)%nat
                  then [ESleep (retry_backoff ^ Z.of_nat i)] else []).
  assert (Hb : posts_to "bms_api" backoff = 0%nat).
  { unfold backoff. destruct (i <? retry_attempts - 1)%nat; reflexivity. }
  destruct (bms_api_loop net rest) as [ok ev] eqn:Eb. cbn [snd] in IH.
  assert (Hp : posts_to "bms_api" [EPost "bms_api"] = 1%nat) by reflexivity.
  assert (Hn : posts_to "bms_api" [] = 0%nat) by reflexivity.
  destruct (net i) as [code body_ok|];
    [destruct (Z.eqb code 200); [destruct body_ok|]|]; cbn [snd length];
    try change (EPost "bms_api" :: ?l) with ([EPost "bms_api"] ++ l)%list;
    rewrite ?posts_to_app, ?Hb, ?Hp, ?Hn; lia.
Qed.

(** X5: [send_resend_notification] reports success exactly when a
    recipient is configured (argument or DEFAULT_RECIPIENT) and one of
    attempts 0, 1, 2 gets a 200 response whose body reads; it never makes
    more than three POSTs to the BMS API. *)
Theorem send_resend_notification_outcome (env : string -> option string)
    (cfg : list (string * pyval)) (net : nat -> http_outcome) :
  (fst (send_resend_notification env cfg net) = true <->
   truthy (py_or (dict_get_default cfg "recipient_email" PNone)
                 (getenv env "DEFAULT_RECIPIENT")) = true /\
   exists i, (i < 3)%nat /\ net i = HResp 200 true) /\
  (posts_to "bms_api" (snd (send_resend_notification env cfg net)) <= 3)%nat.
Proof.
  unfold send_resend_notification.
  destruct (truthy _); cbn [negb].
  - split.
    + rewrite bms_api_loop_result. setoid_rewrite in_seq. split.
      * intros (i & Hi & E). split; [reflexivity|]. exists i.
        split; [unfold retry_attempts in Hi; lia|exact E].
      * intros (_ & i & Hi & E). exists i. split; [unfold retry_attempts; lia|exact E].
    + exact (bms_api_loop_posts net (seq 0 retry_attempts)).
  - cbn. split; [|lia]. split; [discriminate|intros (H & _); discriminate].
Qed.

Section EngineExtraFacts.
Variable py_str : pyval -> string.
Variable env : string -> option string.
Variable clock : nat -> Q.
Variable nets : nat -> network.

Lemma handle_rows_sends process cfg rows : forall counts s,
  (snd counts <= fst counts)%nat ->
  let r := handle_rows py_str env clock nets process cfg counts s rows in
  (snd (fst r) <= fst (fst r))%nat /\ sends (snd r) = (sends s + count_candidates process rows)%nat.
Proof.
  unfold count_candidates.
  induction rows as [|row rows IH]; intros counts s Hc; cbn [handle_rows List.filter].
  - cbn. split; [exact Hc|lia].
  - destruct (process row) as [a|].
    + unfold dispatch.
      destruct (send_alert_notification py_str env _ _ _ _ _) as [[ok times'] ev].
      destruct (IH (S (fst counts), if ok then S (snd counts) else snd counts)
                   (mkEngineState times' (S (sends s)) (events s ++ ev)%list)) as [H1 H2].
      { cbn [fst snd]. destruct ok; lia. }
      split; [exact H1|]. rewrite H2. cbn [sends length]. lia.
    + apply IH, Hc.
Qed.

Lemma process_batches_sends cfg bs : forall counts s,
  (snd counts <= fst counts)%nat ->
  exists s' a n,
    process_batches py_str env clock nets cfg counts s
      (map (fun b => PDict [("table_name", PStr (fst b)); ("rows", PList (snd b))]) bs)
    = (s', Ok (a, n)) /\ (n <= a)%nat /\ sends s' = (sends s + candidates_in bs)%nat.
Proof.
  induction bs as [|[name rows] bs IH]; intros counts s Hc.
  - exists s, (fst counts), (snd counts). destruct counts. cbn. split; [reflexivity|].
    cbn in Hc. split; [exact Hc|lia].
  - cbn [map process_batches py_get fst snd].
    change (dict_get_default [("table_name", PStr name); ("rows", PList rows)]
              "table_name" (PStr "")) with (PStr name).
    change (dict_get_default [("table_name", PStr name); ("rows", PList rows)]
              "rows" (PList [])) with (PList rows).
    unfold candidates_in in *. cbn [fold_right fst snd].
    destruct (handler_for (PStr name)) as [process|].
    + cbn [py_iter].
      destruct (handle_rows_sends process cfg rows counts s Hc) as [H1 H2].
      destruct (handle_rows py_str env clock nets process cfg counts s rows) as [counts' s'].
      cbn [fst snd] in H1, H2.
      destruct (IH counts' s' H1) as (s'' & a & n & E & Hn & Hs).
      exists s'', a, n. split; [exact E|]. split; [exact Hn|]. rewrite Hs, H2. lia.
    + apply IH, Hc.
Qed.

(** X6: on table batches of the host's shape, [process_writes] calls
    [send_alert_notification] once per candidate (the engine's call
    counter grows by the number of alerts generated), and the number of
    notifications sent never exceeds the number of alerts generated. *)
Theorem process_writes_counts (s : engine_state) (args : pyval)
    (bs : list (string * list pyval)) :
  exists s' n,
    process_writes py_str env clock nets s (batches_of bs) args
      = (s', Completed (candidates_in bs) n) /\
    (n <= candidates_in bs)%nat /\ sends s' = (sends s + candidates_in bs)%nat.
Proof.
  unfold process_writes, batches_of. cbn [py_iter].
  destruct (process_batches_sends (parse_alert_arguments args) bs (0, 0)%nat s)
    as (s' & a & n & E & Hn & Hs); [cbn; lia|].
  destruct (process_batches_alerts py_str env clock nets (parse_alert_arguments args) bs
              (0, 0)%nat s) as (s2 & n2 & E2).
  rewrite E2 in E. injection E as <- <- <-. rewrite E2.
  exists s2, n2. cbn in Hn. repeat split; assumption.
Qed.

(** X7: dispatching an alert never changes whether an alert with a
    different key (subject and kind) is let through the cooldown gate, at
    any later time: cooldowns are per key. *)
Theorem send_alert_notification_other_key (st : gmap string Q)
    (cfg : list (string * pyval)) (net : network) (t t' : Q) (a b : alert) :
  alert_key py_str b <> alert_key py_str a ->
  cooldown_allows (snd (fst (send_alert_notification py_str env st cfg net t a)))
    (alert_key py_str b) t' = cooldown_allows st (alert_key py_str b) t'.
Proof.
  intros Hne.
  destruct (cooldown_allows st (alert_key py_str a) t) eqn:E.
  - rewrite (send_alert_notification_store py_str env st cfg net t a E).
    unfold cooldown_allows. rewrite lookup_insert_ne by congruence. reflexivity.
  - rewrite (send_alert_notification_suppressed py_str env st cfg net t a E). reflexivity.
Qed.

End EngineExtraFacts.

Lemma process_energy_alerts_bands_witness :
  process_energy_alerts
    (PDict [("location_id", PStr "loc-1"); ("total_power_kw", PFloat 420%Q);
            ("hourly_cost", PFloat 50%Q); ("average_efficiency", PInt 62)])
  = Some (mkAlert "WARNING" "LOW_ENERGY_EFFICIENCY" (inject_Z 62) 70 None
            (Some (PStr "loc-1")) None None "energy_optimization").
Proof.
  rewrite (process_energy_alerts_bands _ 420 50 (inject_Z 62));
    [reflexivity|reflexivity|reflexivity|reflexivity|reflexivity].
Defined.

Lemma process_energy_alerts_unformattable_cost_witness :
  process_energy_alerts
    (PDict [("location_id", PStr "loc-1"); ("total_power_kw", PFloat 640%Q);
            ("hourly_cost", PStr "n/a"); ("average_efficiency", PInt 40)]) = None.
Proof.
  apply (process_energy_alerts_unformattable_cost _ 640);
    [reflexivity|reflexivity|vm_compute; reflexivity|reflexivity].
Defined.

Lemma parse_alert_arguments_roundtrip_witness :
  parse_alert_arguments (PStr "recipient_email=ops@example.com,alerts_db=alerts")
  = [("recipient_email", PStr "ops@example.com"); ("alerts_db", PStr "alerts")].
Proof.
  apply (parse_alert_arguments_roundtrip
           [("recipient_email", "ops@example.com"); ("alerts_db", "alerts")]).
  - repeat constructor; vm_compute; intros H; repeat (destruct H as [H|H]; [discriminate H|]); exact H.
  - apply (bool_decide_unpack _). vm_compute. reflexivity.
Defined.

Lemma send_alert_notification_other_key_witness :
  cooldown_allows
    (snd (fst (send_alert_notification (fun v => match v with PStr s => s | _ => "" end) (fun _ => None) ∅ []
                 (mkNetwork (fun _ => HRaise) HRaise HRaise) 100
                 (mkAlert "CRITICAL" "HIGH_TEMPERATURE" 210 200 (Some (PStr "boiler-1"))
                    None None None "equipment_monitoring"))))
    "boiler-1_LOW_TEMPERATURE" 150
  = cooldown_allows ∅ "boiler-1_LOW_TEMPERATURE" 150.
Proof.
  apply (send_alert_notification_other_key (fun v => match v with PStr s => s | _ => "" end) (fun _ => None) ∅ []
           (mkNetwork (fun _ => HRaise) HRaise HRaise) 100 150
           (mkAlert "CRITICAL" "HIGH_TEMPERATURE" 210 200 (Some (PStr "boiler-1"))
              None None None "equipment_monitoring")
           (mkAlert "WARNING" "LOW_TEMPERATURE" 50 60 (Some (PStr "boiler-1"))
              None None None "equipment_monitoring")).
  vm_compute. discriminate.
Defined.

End AlertEngineExtraFacts.

(* --------------------------------------------------------------------- *)
(* Predictive maintenance: predictions, schedules, costs, history        *)
(* --------------------------------------------------------------------- *)
Module PredictiveMaintenanceExtraFacts.

Import PredictiveMaintenance PyFacts PredictiveMaintenanceFacts.
Local Open Scope Q_scope.

Section PipelineFacts.
Variable parse_float : string -> option Q.

Lemma analyze_equipment_health_below_85 eid kv :
  50 <= health_score (analyze_equipment_health parse_float eid kv) < 85.
Proof.
  unfold analyze_equipment_health.
  destruct (analyze_equipment_health_body parse_float eid kv) as [r|e] eqn:E.
  - destruct (analyze_equipment_health_body_ok _ _ _ _ E) as (et & th & Hth & ->).
    cbn [health_score].
    destruct Hth as [->|[->|[->|[->| ->]]]]; split; vm_compute;
      first [discriminate | reflexivity].
  - cbn [health_score]. lra.
Qed.

(** X8: for every row that reaches the analysis, the chain
    [analyze_equipment_health], [predict_equipment_failure],
    [update_maintenance_schedule] ends in one of three outcomes: 15%
    probability, "medium" priority and scheduled maintenance; 35%, "high"
    and priority maintenance; or, for an unhashable equipment id, the
    fallback dicts (25%, "medium", routine maintenance).  It never
    predicts "low" or "critical" priority and never schedules an
    emergency inspection. *)
Theorem maintenance_pipeline_outcomes (eid : pyval) (kv : list (string * pyval)) :
  let a := analyze_equipment_health parse_float eid kv in
  let fp := predict_equipment_failure eid a in
  let ms := update_maintenance_schedule eid a fp in
  (failure_probability fp = 15%Z /\ maintenance_priority fp = "medium" /\
   maintenance_type ms = "scheduled_maintenance") \/
  (failure_probability fp = 35%Z /\ maintenance_priority fp = "high" /\
   maintenance_type ms = "priority_maintenance") \/
  (hashable eid = false /\ failure_probability fp = 25%Z /\
   maintenance_priority fp = "medium" /\ maintenance_type ms = "routine_maintenance").
Proof.
  cbv zeta.
  destruct (analyze_equipment_health_below_85 eid kv) as [Hlo Hhi].
  set (a := analyze_equipment_health parse_float eid kv) in *. clearbody a.
  unfold update_maintenance_schedule, predict_equipment_failure.
  destruct (hashable eid) eqn:Hh.
  - unfold failure_band. Qleb_cases; try (exfalso; lra); cbn.
    + left. split; [reflexivity|split; reflexivity].
    + right; left. split; [reflexivity|split; reflexivity].
  - right; right. destruct (failure_band (health_score a)) as [p ttf]. cbn.
    split; [reflexivity|split; [reflexivity|split; reflexivity]].
Qed.

End PipelineFacts.

Lemma failure_band_spec s :
  (85 <= s -> failure_band s = (5, 180)%Z) /\
  (70 <= s < 85 -> failure_band s = (15, 90)%Z) /\
  (50 <= s < 70 -> failure_band s = (35, 30)%Z) /\
  (30 <= s < 50 -> failure_band s = (60, 14)%Z) /\
  (s < 30 -> failure_band s = (85, 7)%Z).
Proof.
  unfold failure_band. Qleb_cases; repeat split; intros; first [reflexivity | exfalso; lra].
Qed.

Lemma predict_hashable eid a :
  hashable eid = true ->
  failure_probability (predict_equipment_failure eid a) = fst (failure_band (health_score a)) /\
  estimated_time_to_failure_days (predict_equipment_failure eid a) =
    Some (snd (failure_band (health_score a))) /\
  maintenance_priority (predict_equipment_failure eid a) =
    failure_priority (fst (failure_band (health_score a))) /\
  potential_failure_modes (predict_equipment_failure eid a) =
    Some (identify_failure_modes (analysis_type a) a) /\
  recommendation (predict_equipment_failure eid a) =
    generate_maintenance_recommendation (analysis_type a) (fst (failure_band (health_score a)))
      (identify_failure_modes (analysis_type a) a).
Proof.
  intros Hh. unfold predict_equipment_failure. rewrite Hh.
  destruct (failure_band (health_score a)). cbn. repeat split.
Qed.

(** Case split on the band of a health score. *)
Ltac band_cases s :=
  let H1 := fresh in let H2 := fresh in let H3 := fresh in let H4 := fresh in
  let H5 := fresh in
  destruct (failure_band_spec s) as (H1 & H2 & H3 & H4 & H5);
  destruct (Qlt_le_dec s 30);
  [rewrite H5 by lra
  |destruct (Qlt_le_dec s 50);
   [rewrite H4 by lra
   |destruct (Qlt_le_dec s 70);
    [rewrite H3 by lra
    |destruct (Qlt_le_dec s 85); [rewrite H2 by lra|rewrite H1 by lra]]]];
  clear H1 H2 H3 H4 H5.

(** X9: for a hashable equipment id, [predict_equipment_failure] sets
    priority "low" iff the health score is at least 85, "medium" iff it
    lies in [70, 85), "high" iff in [50, 70) and "critical" iff below 50. *)
Theorem predict_equipment_failure_priority (eid : pyval) (a : health_analysis) :
  hashable eid = true ->
  let fp := predict_equipment_failure eid a in
  (maintenance_priority fp = "low" <-> 85 <= health_score a) /\
  (maintenance_priority fp = "medium" <-> 70 <= health_score a < 85) /\
  (maintenance_priority fp = "high" <-> 50 <= health_score a < 70) /\
  (maintenance_priority fp = "critical" <-> health_score a < 50).
Proof.
  intros Hh. cbv zeta. destruct (predict_hashable eid a Hh) as (_ & _ & -> & _ & _).
  band_cases (health_score a); cbn;
    repeat split; intros; first [reflexivity | discriminate | lra | exfalso; lra].
Qed.

(** X10: for a hashable equipment id, a higher health score never gives
    a higher failure probability nor a shorter estimated time to failure. *)
Theorem predict_equipment_failure_monotone (eid : pyval) (a1 a2 : health_analysis) :
  hashable eid = true -> health_score a1 <= health_score a2 ->
  (failure_probability (predict_equipment_failure eid a2) <=
   failure_probability (predict_equipment_failure eid a1))%Z /\
  exists d1 d2,
    estimated_time_to_failure_days (predict_equipment_failure eid a1) = Some d1 /\
    estimated_time_to_failure_days (predict_equipment_failure eid a2) = Some d2 /\
    (d1 <= d2)%Z.
Proof.
  intros Hh Hle.
  destruct (predict_hashable eid a1 Hh) as (P1 & T1 & _).
  destruct (predict_hashable eid a2 Hh) as (P2 & T2 & _).
  rewrite P1, P2, T1, T2.
  band_cases (health_score a1); band_cases (health_score a2); cbn;
    first [exfalso; lra
          | split; [lia|eexists; eexists; split; [reflexivity|split; [reflexivity|lia]]]].
Qed.

Lemma EQUIPMENT_PARAMETERS_indicators t p :
  dict_get EQUIPMENT_PARAMETERS t = Some p -> failure_indicators p <> [].
Proof.
  unfold EQUIPMENT_PARAMETERS. cbn [dict_get].
  repeat match goal with |- context [if ?c then _ else _] => destruct c end;
    intros E; try discriminate; injection E as <-; discriminate.
Qed.

(** X11: for a hashable id of one of the six known equipment types, the
    prediction lists no failure mode exactly when its priority is "low"
    or "medium"; below a health score of 50 the priority is "critical",
    every failure indicator of the type is listed, and the recommendation
    is the URGENT text naming them, joined by ", ". *)
Theorem predict_equipment_failure_modes (eid : pyval) (a : health_analysis)
    (p : equipment_parameters) :
  hashable eid = true -> dict_get EQUIPMENT_PARAMETERS (analysis_type a) = Some p ->
  let fp := predict_equipment_failure eid a in
  (potential_failure_modes fp = Some [] <->
   maintenance_priority fp = "low" \/ maintenance_priority fp = "medium") /\
  (health_score a < 50 ->
   maintenance_priority fp = "critical" /\
   potential_failure_modes fp = Some (failure_indicators p) /\
   recommendation fp =
     "URGENT: Schedule immediate inspection for " ++ analysis_type a ++
     ". Potential issues: " ++ String.concat ", " (failure_indicators p)).
Proof.
  intros Hh Hp. cbv zeta.
  assert (Hne := EQUIPMENT_PARAMETERS_indicators _ _ Hp).
  destruct (predict_hashable eid a Hh) as (_ & _ & -> & -> & ->).
  unfold identify_failure_modes. rewrite Hp.
  destruct (failure_indicators p) as [|i rest]; [congruence|].
  destruct (Qltb (health_score a) 50) eqn:E1; [apply Qltb_true in E1|apply Qltb_false in E1];
  destruct (Qltb (health_score a) 70) eqn:E2; [apply Qltb_true in E2|apply Qltb_false in E2|
    apply Qltb_true in E2|apply Qltb_false in E2];
  band_cases (health_score a); cbn;
    repeat split; intros; try lra;
    repeat match goal with H : _ \/ _ |- _ => destruct H end;
    first [reflexivity | discriminate | lra | exfalso; lra | tauto | congruence].
Qed.

(** X12: for a hashable equipment id, [generate_maintenance_alert] called
    with the prediction of [predict_equipment_failure] gives level
    "critical" iff the score is below 20, "high" iff it lies in [20, 30)
    and "warning" iff it is at least 30. *)
Theorem generate_maintenance_alert_level_bands (eid : pyval) (a : health_analysis) :
  hashable eid = true ->
  let level := generate_maintenance_alert_level a (predict_equipment_failure eid a) in
  (level = "critical" <-> health_score a < 20) /\
  (level = "high" <-> 20 <= health_score a < 30) /\
  (level = "warning" <-> 30 <= health_score a).
Proof.
  intros Hh. cbv zeta. unfold generate_maintenance_alert_level.
  destruct (predict_hashable eid a Hh) as (-> & _).
  change (threshold "critical") with 20.
  band_cases (health_score a); cbn [fst];
  destruct (Qltb (health_score a) 20) eqn:E;
    [apply Qltb_true in E|apply Qltb_false in E| apply Qltb_true in E|apply Qltb_false in E
    |apply Qltb_true in E|apply Qltb_false in E| apply Qltb_true in E|apply Qltb_false in E
    |apply Qltb_true in E|apply Qltb_false in E]; cbn;
    repeat split; intros; first [reflexivity | discriminate | lra | exfalso; lra].
Qed.

Lemma round2_int (x : Q) (z : Z) : x == inject_Z z -> round2 x == x.
Proof.
  intros Hx. unfold round2.
  assert (Hf : Qfloor (x * 100) = (z * 100)%Z).
  { rewrite (Qfloor_comp (x * 100) (inject_Z (z * 100))).
    - apply Qfloor_Z.
    - rewrite Hx, inject_Z_mult. reflexivity. }
  rewrite Hf.
  assert (Hr : Qltb (x * 100 - inject_Z (z * 100)) (1 # 2) = true).
  { apply Qltb_true. rewrite Hx, inject_Z_mult. change (inject_Z 100) with 100. lra. }
  rewrite Hr. rewrite Hx, inject_Z_mult. change (inject_Z 100) with 100. field.
Qed.

Lemma base_cost_cases et :
  dict_get_default base_cost et 500 = 800 \/ dict_get_default base_cost et 500 = 1200 \/
  dict_get_default base_cost et 500 = 600 \/ dict_get_default base_cost et 500 = 400 \/
  dict_get_default base_cost et 500 = 300 \/ dict_get_default base_cost et 500 = 1000 \/
  dict_get_default base_cost et 500 = 500.
Proof.
  unfold dict_get_default, base_cost. cbn [dict_get].
  repeat match goal with |- context [if ?c then _ else _] => destruct c end; tauto.
Qed.

Lemma round2_int_plus (q : Q) (n : Z) :
  q == inject_Z (Qfloor q) -> round2 (q + inject_Z n * 50) == q + inject_Z n * 50.
Proof.
  intros Hq. apply round2_int with (z := (Qfloor q + n * 50)%Z).
  rewrite inject_Z_plus, inject_Z_mult, <- Hq. reflexivity.
Qed.

Lemma estimate_maintenance_cost_value et mt tasks :
  estimate_maintenance_cost et mt tasks ==
  dict_get_default base_cost et 500 *
    (if String.eqb mt "emergency_inspection" then 2
     else if String.eqb mt "priority_maintenance" then 3 # 2 else 1) +
  inject_Z (Z.of_nat (length tasks)) * 50.
Proof.
  unfold estimate_maintenance_cost.
  assert (Hc := base_cost_cases et).
  destruct (String.eqb mt "emergency_inspection");
    [|destruct (String.eqb mt "priority_maintenance")];
  (rewrite round2_int_plus; [ring|]);
  destruct Hc as [->|[->|[->|[->|[->|[->| ->]]]]]]; vm_compute; reflexivity.
Qed.

(** X13: every task of the list adds exactly 50 to
    [estimate_maintenance_cost] (the rounding to cents never changes the
    sum), and for the same tasks an emergency inspection costs more than
    priority maintenance, which costs more than scheduled maintenance,
    which costs the same as routine maintenance. *)
Theorem estimate_maintenance_cost_increments (equipment_type : string) (tasks : list string) :
  (forall mt task,
     estimate_maintenance_cost equipment_type mt (task :: tasks) ==
     estimate_maintenance_cost equipment_type mt tasks + 50) /\
  (estimate_maintenance_cost equipment_type "priority_maintenance" tasks <
   estimate_maintenance_cost equipment_type "emergency_inspection" tasks) /\
  (estimate_maintenance_cost equipment_type "scheduled_maintenance" tasks <
   estimate_maintenance_cost equipment_type "priority_maintenance" tasks) /\
  (estimate_maintenance_cost equipment_type "routine_maintenance" tasks ==
   estimate_maintenance_cost equipment_type "scheduled_maintenance" tasks).
Proof.
  assert (Hpos : 0 < dict_get_default base_cost equipment_type 500).
  { destruct (base_cost_cases equipment_type) as [->|[->|[->|[->|[->|[->| ->]]]]]];
      reflexivity. }
  split.
  - intros mt task. rewrite !estimate_maintenance_cost_value.
    cbn [length]. rewrite Nat2Z.inj_succ, <- Z.add_1_r, inject_Z_plus. ring.
  - rewrite !estimate_maintenance_cost_value. cbn -[Qmult Qplus Qlt Qeq inject_Z].
    set (c := dict_get_default base_cost equipment_type 500) in *.
    set (n := inject_Z (Z.of_nat (length tasks))).
    repeat split; lra.
Qed.

Lemma base_duration_cases et :
  dict_get_default base_duration et 3 = 4 \/ dict_get_default base_duration et 3 = 6 \/
  dict_get_default base_duration et 3 = 3 \/ dict_get_default base_duration et 3 = 2 \/
  dict_get_default base_duration et 3 = 3 # 2 \/ dict_get_default base_duration et 3 = 5.
Proof.
  unfold dict_get_default, base_duration. cbn [dict_get].
  repeat match goal with |- context [if ?c then _ else _] => destruct c end; tauto.
Qed.

(** X14: for every equipment type, [calculate_maintenance_duration] is
    positive and orders the maintenance types: emergency inspection <
    scheduled maintenance < routine maintenance < priority maintenance. *)
Theorem calculate_maintenance_duration_order (equipment_type : string) :
  (0 < calculate_maintenance_duration equipment_type "emergency_inspection") /\
  (calculate_maintenance_duration equipment_type "emergency_inspection" <
   calculate_maintenance_duration equipment_type "scheduled_maintenance") /\
  (calculate_maintenance_duration equipment_type "scheduled_maintenance" <
   calculate_maintenance_duration equipment_type "routine_maintenance") /\
  (calculate_maintenance_duration equipment_type "routine_maintenance" <
   calculate_maintenance_duration equipment_type "priority_maintenance").
Proof.
  unfold calculate_maintenance_duration. cbn -[Qmult Qlt dict_get_default].
  destruct (base_duration_cases equipment_type) as [->|[->|[->|[->|[->| ->]]]]];
    repeat split; vm_compute; reflexivity.
Qed.




Lemma predict_equipment_failure_priority_witness :
  maintenance_priority
    (predict_equipment_failure (PStr "pump-1")
       (mkAnalysis 66 "fair" None None None None (Some "pump"))) = "high" <->
  50 <= 66 < 70.
Proof.
  apply (predict_equipment_failure_priority (PStr "pump-1")
           (mkAnalysis 66 "fair" None None None None (Some "pump"))).
  reflexivity.
Defined.

Lemma predict_equipment_failure_monotone_witness :
  (failure_probability
     (predict_equipment_failure (PStr "pump-1")
        (mkAnalysis 66 "fair" None None None None (Some "pump"))) <=
   failure_probability
     (predict_equipment_failure (PStr "pump-1")
        (mkAnalysis 40 "poor" None None None None (Some "pump"))))%Z.
Proof.
  apply (predict_equipment_failure_monotone (PStr "pump-1")
           (mkAnalysis 40 "poor" None None None None (Some "pump"))
           (mkAnalysis 66 "fair" None None None None (Some "pump")));
    [reflexivity|vm_compute; discriminate].
Defined.

Lemma predict_equipment_failure_modes_witness :
  potential_failure_modes
    (predict_equipment_failure (PStr "pump-1")
       (mkAnalysis 40 "poor" None None None None (Some "pump")))
  = Some ["cavitation"; "bearing_wear"; "seal_failure"].
Proof.
  apply (predict_equipment_failure_modes (PStr "pump-1")
           (mkAnalysis 40 "poor" None None None None (Some "pump"))
           (mkParams ["water_temp"; "Supply_Temp"; "pressure"] 70 120
              ["cavitation"; "bearing_wear"; "seal_failure"]));
    [reflexivity|reflexivity|vm_compute; reflexivity].
Defined.

Lemma generate_maintenance_alert_level_bands_witness :
  generate_maintenance_alert_level (mkAnalysis 25 "critical" None None None None (Some "boiler"))
    (predict_equipment_failure (PStr "boiler-1")
       (mkAnalysis 25 "critical" None None None None (Some "boiler"))) = "high".
Proof.
  apply (generate_maintenance_alert_level_bands (PStr "boiler-1")
           (mkAnalysis 25 "critical" None None None None (Some "boiler")));
    [reflexivity|split; vm_compute; [discriminate|reflexivity]].
Defined.



End PredictiveMaintenanceExtraFacts.
